(** * recpipe: the enrollment-to-train/test pipeline of [recpipe.py]

    A shallow embedding of the data transformations of [recpipe.py]:
    grade-to-quality-point resolution, cohort/term filters, the
    train/test splitter with its cold-start backfill, the libFM
    feature-vector encoding and the result aggregator.

    Data frames are lists of rows in frame order.  A missing cell
    (pandas NaN) is [None] / [NaN]; a Python exception is [Raise]. *)

From Stdlib Require Import List Bool Arith ZArith QArith Lia.
From Stdlib Require Import String Ascii.
From Stdlib Require Import DecimalString DecimalPos DecimalZ.
From Stdlib Require Import Permutation Sorted.
Import ListNotations.

Local Open Scope string_scope.
Local Open Scope list_scope.
Local Open Scope Z_scope.

(** ** Values *)

(** A float cell: a number or NaN. *)
Inductive float : Type :=
| Num (q : Q)
| NaN.

(** The GRADE cell of a row: a string or a missing value.  A missing
    cell of a column that also holds strings is the object [np.nan]
    itself ([CNaN]); a column that is missing throughout is read as
    float64, and its cells reach the row as NaN values that are other
    objects than [np.nan] ([FNaN]). *)
Inductive cell : Type :=
| Str (s : string)
| CNaN
| FNaN.

(** [pd.isnull] on a float cell. *)
Definition isnull (x : float) : bool :=
  match x with
  | NaN => true
  | Num _ => false
  end.

(** Python [a != b] on GRADE cells.  NaN differs from everything, itself
    included; a string differs from a float. *)
Definition cell_ne (a b : cell) : bool :=
  match a, b with
  | Str s, Str t => negb (String.eqb s t)
  | _, _ => true
  end.

(** Key match of a dictionary subscript on GRADE cells: equal strings,
    or the object [np.nan] itself, which is found by identity; any other
    NaN equals no key. *)
Definition key_eqb (x y : cell) : bool :=
  match x, y with
  | Str s, Str t => String.eqb s t
  | CNaN, CNaN => true
  | _, _ => false
  end.

(** Outcome of code that may raise. *)
Inductive result (A : Type) : Type :=
| Ok (a : A)
| Raise (e : string).
Arguments Ok {A} a.
Arguments Raise {A} e.

Definition bind {A B : Type} (m : result A) (k : A -> result B) : result B :=
  match m with
  | Ok a => k a
  | Raise e => Raise e
  end.

Notation "x <- m ;; k" := (bind m (fun x => k))
  (at level 61, m at next level, right associativity).

Fixpoint mapM {A B : Type} (f : A -> result B) (l : list A) : result (list B) :=
  match l with
  | [] => Ok []
  | a :: l' => b <- f a ;; bs <- mapM f l' ;; Ok (b :: bs)
  end.

(** ** Rows *)

(** One enrollment record after preprocessing.  [cohort] and [termnum]
    come from left joins and may be missing. *)
Record Row : Type := mkRow {
  sid : Z;
  cid : Z;
  iid : option Z;
  termnum : option Z;
  cohort : option Z;
  GRADE : cell;
  grdpts : float
}.

Definition set_grdpts (r : Row) (p : float) : Row :=
  mkRow (sid r) (cid r) (iid r) (termnum r) (cohort r) (GRADE r) p.

Definition set_cid (r : Row) (c : Z) : Row :=
  mkRow (sid r) c (iid r) (termnum r) (cohort r) (GRADE r) (grdpts r).

Definition set_termnum (r : Row) (t : option Z) : Row :=
  mkRow (sid r) (cid r) (iid r) t (cohort r) (GRADE r) (grdpts r).

(** ** Grade to quality points *)

Module Grades.

(** The dictionary [grade2pts], as its items in source order. *)
Definition grade2pts_items : list (cell * float) :=
  [ (Str "A+", Num (4 # 1));
    (Str "A", Num (4 # 1));
    (Str "A-", Num (367 # 100));
    (Str "B+", Num (333 # 100));
    (Str "B", Num (3 # 1));
    (Str "B-", Num (267 # 100));
    (Str "C+", Num (233 # 100));
    (Str "C", Num (2 # 1));
    (Str "C-", Num (167 # 100));
    (Str "D", Num (1 # 1));
    (Str "F", Num (0 # 1));
    (Str "IN", Num (0 # 1));
    (Str "S", Num (3 # 1));
    (Str "NC", Num (1 # 1));
    (Str "W", Num (1 # 1));
    (Str "NR", NaN);
    (Str "AU", NaN);
    (Str "REG", NaN);
    (Str "IX", NaN);
    (Str "IP", NaN);
    (Str "nan", NaN);
    (CNaN, NaN) ].

(** The subscript [grade2pts[g]]: a key that is absent raises
    KeyError. *)
Definition grade2pts (g : cell) : result float :=
  match find (fun kv => key_eqb (fst kv) g) grade2pts_items with
  | Some kv => Ok (snd kv)
  | None => Raise "KeyError"
  end.

(** The keys of [grade2pts]. *)
Definition table_keys : list cell := map fst grade2pts_items.

(** The keys whose entry is NaN: NR, AU, REG, IX, IP, "nan" and the
    missing grade. *)
Definition missing_keys : list cell :=
  map fst (filter (fun kv => isnull (snd kv)) grade2pts_items).

(** [fill_grdpts], applied to one row of the courses table. *)
Definition fill_grdpts (series : Row) : result float :=
  if cell_ne (GRADE series) CNaN
  then grade2pts (GRADE series)
  else Ok (grdpts series).

(** [courses.grdpts = courses.apply(fill_grdpts, axis=1)]: an exception
    in any row aborts the whole step. *)
Definition apply_fill_grdpts (courses : list Row) : result (list Row) :=
  mapM (fun r => p <- fill_grdpts r ;; Ok (set_grdpts r p)) courses.

End Grades.

(** ** Strings *)

Module PyStr.

(** White space: blank, tab, line feed, vertical tab, form feed and
    carriage return. *)
Definition is_space (c : ascii) : bool :=
  existsb (Ascii.eqb c) [" "; "009"; "010"; "011"; "012"; "013"]%char.

(** [s.lstrip()], [s.rstrip()] and [s.strip()]. *)
Fixpoint lstrip (s : string) : string :=
  match s with
  | EmptyString => EmptyString
  | String c s' => if is_space c then lstrip s' else s
  end.

Fixpoint rstrip (s : string) : string :=
  match s with
  | EmptyString => EmptyString
  | String c s' =>
      match rstrip s' with
      | EmptyString => if is_space c then EmptyString else String c EmptyString
      | t => String c t
      end
  end.

Definition strip (s : string) : string := rstrip (lstrip s).

End PyStr.

(** ** Cohort/term filters *)

Module TrainTestFilter.

(** [term_max]: "some number greater than max term id". *)
Definition term_max : Z := 14.

Record t : Type := mk {
  cohort_start : Z;
  cohort_end : Z;
  term_start : Z;
  term_end : Z
}.

(** [c in s] for a one-character [c]. *)
Fixpoint contains (c : ascii) (s : string) : bool :=
  match s with
  | EmptyString => false
  | String a s' => Ascii.eqb a c || contains c s'
  end.

(** [s.split(c)] for a one-character separator: the pieces between the
    occurrences of [c], empty pieces included. *)
Fixpoint split (c : ascii) (s : string) : list string :=
  match s with
  | EmptyString => [EmptyString]
  | String a s' =>
      if Ascii.eqb a c then EmptyString :: split c s'
      else match split c s' with
           | p :: ps => String a p :: ps
           | [] => [String a EmptyString]
           end
  end.

Definition digit (a : ascii) : option Z :=
  let n := Z.of_nat (nat_of_ascii a) in
  if (48 <=? n) && (n <=? 57) then Some (n - 48) else None.

Fixpoint digits (acc : Z) (s : string) : result Z :=
  match s with
  | EmptyString => Ok acc
  | String a s' =>
      match digit a with
      | Some d => digits (10 * acc + d) s'
      | None => Raise "ValueError"
      end
  end.

(** [int(s)] on the pieces of a filter specification: a non-empty run of
    decimal digits, with an optional leading plus sign.  (A minus sign
    never reaches [int]: the pieces come from splitting on it.) *)
Definition int_literal (s : string) : result Z :=
  match s with
  | EmptyString => Raise "ValueError"
  | String a s' =>
      if Ascii.eqb a "+"
      then match s' with
           | EmptyString => Raise "ValueError"
           | _ => digits 0 s'
           end
      else digits 0 s
  end.

(** [int(s)]: white space around the literal is ignored. *)
Definition int (s : string) : result Z := int_literal (PyStr.strip s).

(** Unpacking a sequence into exactly two names. *)
Definition unpack2 {A : Type} (l : list A) : result (A * A) :=
  match l with
  | [a; b] => Ok (a, b)
  | _ => Raise "ValueError"
  end.

(** [_split]: "C-D" gives (C, D); a single "C" gives (C, term_max). *)
Definition _split (config : string) : result (Z * Z) :=
  if contains "-" config
  then ns <- mapM int (split "-" config) ;; unpack2 ns
  else n <- int config ;; Ok (n, term_max).

(** [__init__]. *)
Definition init (filt : string) : result t :=
  if contains ":" filt
  then ct <- unpack2 (split ":" filt) ;;
       c <- _split (fst ct) ;;
       tm <- _split (snd ct) ;;
       Ok (mk (fst c) (snd c) (fst tm) (snd tm))
  else ns <- mapM int (split "-" filt) ;;
       c <- unpack2 ns ;;
       Ok (mk (fst c) (snd c) 0 term_max).

(** [series >= n] and [series <= n] on a column that may hold NaN: every
    comparison with NaN is false. *)
Definition ge_cell (x : option Z) (n : Z) : bool :=
  match x with
  | Some v => n <=? v
  | None => false
  end.

Definition le_cell (x : option Z) (n : Z) : bool :=
  match x with
  | Some v => v <=? n
  | None => false
  end.

(** [mask], row by row. *)
Definition mask (f : t) (r : Row) : bool :=
  ge_cell (cohort r) (cohort_start f) &&
  le_cell (cohort r) (cohort_end f) &&
  ge_cell (termnum r) (term_start f) &&
  le_cell (termnum r) (term_end f).

(** [data[self.mask(data)]] and [data[~self.mask(data)]]. *)
Definition train (f : t) (data : list Row) : list Row :=
  filter (mask f) data.

Definition test (f : t) (data : list Row) : list Row :=
  filter (fun r => negb (mask f r)) data.

End TrainTestFilter.

(** ** Frame operations used by the splitter *)

Module Frame.

Definition float_eqb (x y : float) : bool :=
  match x, y with
  | Num p, Num q => Qeq_bool p q
  | NaN, NaN => true
  | _, _ => false
  end.

Definition optZ_eqb (x y : option Z) : bool :=
  match x, y with
  | Some a, Some b => a =? b
  | None, None => true
  | _, _ => false
  end.

(** Equality of two GRADE cells in a frame: equal strings, or both
    missing. *)
Definition cell_eqb (x y : cell) : bool :=
  match x, y with
  | Str s, Str t => String.eqb s t
  | Str _, _ => false
  | _, Str _ => false
  | _, _ => true
  end.

(** Equality of two rows on all columns, as [drop_duplicates] compares
    them (missing cells compare equal). *)
Definition row_eqb (a b : Row) : bool :=
  (sid a =? sid b) && (cid a =? cid b) && optZ_eqb (iid a) (iid b) &&
  optZ_eqb (termnum a) (termnum b) && optZ_eqb (cohort a) (cohort b) &&
  cell_eqb (GRADE a) (GRADE b) && float_eqb (grdpts a) (grdpts b).

(** [df.drop_duplicates()]: the first of each run of equal rows stays. *)
Fixpoint drop_duplicates_from (seen : list Row) (l : list Row) : list Row :=
  match l with
  | [] => []
  | r :: l' =>
      if existsb (row_eqb r) seen then drop_duplicates_from seen l'
      else r :: drop_duplicates_from (r :: seen) l'
  end.

Definition drop_duplicates (l : list Row) : list Row :=
  drop_duplicates_from [] l.

(** [df.drop_duplicates(('sid','cid'), take_last=True)]: of the rows
    with one (sid, cid) the last stays. *)
Definition same_sid_cid (a b : Row) : bool :=
  (sid a =? sid b) && (cid a =? cid b).

Fixpoint drop_duplicates_take_last (l : list Row) : list Row :=
  match l with
  | [] => []
  | r :: l' =>
      if existsb (same_sid_cid r) l' then drop_duplicates_take_last l'
      else r :: drop_duplicates_take_last l'
  end.

(** A stable sort by a comparison [leb]. *)
Fixpoint insert {A : Type} (leb : A -> A -> bool) (x : A) (l : list A) : list A :=
  match l with
  | [] => [x]
  | y :: l' => if leb x y then x :: y :: l' else y :: insert leb x l'
  end.

Fixpoint sort {A : Type} (leb : A -> A -> bool) (l : list A) : list A :=
  match l with
  | [] => []
  | x :: l' => insert leb x (sort leb l')
  end.

(** Order of [data.sort(['termnum', 'sid'])]: by term number, missing
    ones last, then by student id. *)
Definition termnum_sid_leb (a b : Row) : bool :=
  match termnum a, termnum b with
  | Some x, Some y =>
      if x <? y then true else if y <? x then false else sid a <=? sid b
  | Some _, None => true
  | None, Some _ => false
  | None, None => sid a <=? sid b
  end.

(** [series.isin(values)] on an integer column. *)
Definition isin (v : Z) (values : list Z) : bool :=
  existsb (Z.eqb v) values.

(** [series.isin(values)] on the GRADE column. *)
Definition grade_isin (g : cell) (values : list string) : bool :=
  match g with
  | Str s => existsb (String.eqb s) values
  | CNaN => false
  | FNaN => false
  end.

(** [np.unique]: the distinct values, ascending. *)
Fixpoint dedup (l : list Z) : list Z :=
  match l with
  | [] => []
  | x :: l' => if isin x l' then dedup l' else x :: dedup l'
  end.

Definition unique (l : list Z) : list Z := sort Z.leb (dedup l).

(** [np.setdiff1d(a, b)]: the distinct values of [a] that are not in
    [b], ascending. *)
Definition setdiff1d (a b : list Z) : list Z :=
  filter (fun v => negb (isin v (unique b))) (unique a).

(** Number of rows of [l] whose key is [v]. *)
Definition count_key (key : Row -> Z) (v : Z) (l : list Row) : nat :=
  List.length (filter (fun r => key r =? v) l).

(** [groupby(key)[key].transform('count')]: for each row the size of
    its group. *)
Definition transform_count (key : Row -> Z) (l : list Row) : list nat :=
  map (fun r => count_key key (key r) l) l.

(** [groupby(key).head(n)]: the rows with fewer than [n] earlier rows of
    the same group, in frame order.  [seen] holds the rows already
    passed. *)
Fixpoint head_from (key : Row -> Z) (n : nat) (seen l : list Row) : list Row :=
  match l with
  | [] => []
  | r :: l' =>
      if (count_key key (key r) seen <? n)%nat
      then r :: head_from key n (r :: seen) l'
      else head_from key n (r :: seen) l'
  end.

Definition groupby_head (key : Row -> Z) (n : nat) (l : list Row) : list Row :=
  head_from key n [] l.

(** [groupby(key).tail(ns)] with a per-row count [ns]: a row stays when
    fewer than its count of rows of the same group follow it. *)
Fixpoint groupby_tail (key : Row -> Z) (ns : list nat) (l : list Row) {struct l}
  : list Row :=
  match l, ns with
  | r :: l', n :: ns' =>
      if (count_key key (key r) l' <? n)%nat
      then r :: groupby_tail key ns' l'
      else groupby_tail key ns' l'
  | _, _ => []
  end.

End Frame.

(** ** The splitter *)

Module DataSplitterBaseTask.

Import Frame.

(** [read_data] after the CSV is loaded: the last row of each
    (sid, cid) stays, then rows without quality points go. *)
Definition read_data (data : list Row) : list Row :=
  filter (fun r => negb (isnull (grdpts r))) (drop_duplicates_take_last data).

(** [backfill(train, test, key, firstn)]. *)
Definition backfill (train test : list Row) (key : Row -> Z) (firstn : nat)
  : list Row * list Row :=
  if (firstn =? 0)%nat then (train, test)
  else
    let diff := setdiff1d (map key test) (map key train) in
    let diff_mask := fun r => isin (key r) diff in
    let diff_records := filter diff_mask test in
    let counts := transform_count key diff_records in
    let tokeep := map (fun c => (c - firstn)%nat) counts in
    let removing := groupby_head key firstn diff_records in
    let keeping := groupby_tail key tokeep diff_records in
    (train ++ removing,
     filter (fun r => negb (diff_mask r)) test ++ keeping).

Definition toremove : list string := ["W"; "S"; "NC"].

(** [pd.concat] of a list of frames; an empty list raises. *)
Definition concat_frames (frames : list (list Row)) : result (list Row) :=
  match frames with
  | [] => Raise "ValueError"
  | _ => Ok (List.concat frames)
  end.

(** [split_data], from the rows of the preprocessed table. *)
Definition split_data (filters : list TrainTestFilter.t)
    (discard_nongrade : bool)
    (backfill_cold_students backfill_cold_courses : nat)
    (input : list Row) : result (list Row * list Row) :=
  let data := read_data input in
  let data := sort termnum_sid_leb data in
  tr <- concat_frames (map (fun f => TrainTestFilter.train f data) filters) ;;
  let train := drop_duplicates tr in
  te <- concat_frames (map (fun f => TrainTestFilter.test f data) filters) ;;
  let test := drop_duplicates te in
  let test := filter (fun r => negb (grade_isin (GRADE r) toremove)) test in
  let train :=
    if discard_nongrade
    then filter (fun r => negb (grade_isin (GRADE r) toremove)) train
    else train in
  let '(train, test) := backfill train test sid backfill_cold_students in
  let '(train, test) := backfill train test cid backfill_cold_courses in
  Ok (train, test).

(** The frames of [split_data] at its successive steps. *)

(** [frame[~frame.GRADE.isin(toremove)]]. *)
Definition graded_only (l : list Row) : list Row :=
  filter (fun r => negb (grade_isin (GRADE r) toremove)) l.

(** The data after [read_data] and the sort. *)
Definition sorted_data (input : list Row) : list Row :=
  sort termnum_sid_leb (read_data input).

(** The train and test frames handed to the first backfill. *)
Definition train_before (filters : list TrainTestFilter.t)
    (discard_nongrade : bool) (input : list Row) : list Row :=
  let tr :=
    drop_duplicates
      (List.concat
         (map (fun f => TrainTestFilter.train f (sorted_data input)) filters)) in
  if discard_nongrade then graded_only tr else tr.

Definition test_before (filters : list TrainTestFilter.t) (input : list Row)
  : list Row :=
  graded_only
    (drop_duplicates
       (List.concat
          (map (fun f => TrainTestFilter.test f (sorted_data input)) filters))).

End DataSplitterBaseTask.

(** ** The libFM encoding *)

Module UserCourseGradeLibFM.

(** One written line: [rating idx:val idx:val ...]. *)
Record line : Type := mkLine {
  rating : float;
  features : list (Z * Z)
}.

(** Python [max] of a sequence; the empty sequence raises. *)
Definition py_max (l : list Z) : result Z :=
  match l with
  | [] => Raise "ValueError"
  | x :: l' => Ok (fold_left Z.max l' x)
  end.

(** [series[timecol]] for the columns [write_libfm] is called with. *)
Definition time_column (timecol : string) (series : Row) : result (option Z) :=
  if String.eqb timecol "termnum" then Ok (termnum series)
  else Raise "KeyError".

(** The [%d] conversion: a missing value cannot be converted. *)
Definition fmt_d (x : option Z) : result Z :=
  match x with
  | Some v => Ok v
  | None => Raise "ValueError"
  end.

(** [extract_row] of [write_libfm], selected by [time_feat_num] and
    [timecol] as in the source. *)
Definition extract_row (timecol : string) (time_feat_num : Z) (series : Row)
  : result line :=
  if negb (time_feat_num =? 0) then
    c <- time_column timecol series ;;
    t <- fmt_d c ;;
    Ok (mkLine (grdpts series)
          [(sid series, 1); (cid series, 1); (time_feat_num, t)])
  else if negb (String.eqb timecol "") then
    c <- time_column timecol series ;;
    t <- fmt_d c ;;
    Ok (mkLine (grdpts series) [(sid series, 1); (cid series, 1); (t, 1)])
  else
    Ok (mkLine (grdpts series) [(sid series, 1); (cid series, 1)]).

(** What one output file holds: the lines of the records or, for a
    frame without rows, the names of the frame's columns. *)
Inductive content : Type :=
| Lines (ls : list line)
| ColumnNames.

(** [write_libfm]: what is written for [data].  On a frame without rows
    [apply] returns the empty frame itself, and joining it gives its
    column names; otherwise [apply] gives one line per row. *)
Definition write_libfm (data : list Row) (timecol : string) (time_feat_num : Z)
  : result content :=
  match data with
  | [] => Ok ColumnNames
  | _ => ls <- mapM (extract_row timecol time_feat_num) data ;; Ok (Lines ls)
  end.

(** The content of a file whose records are written as [ls]. *)
Definition content_of (ls : list line) : content :=
  match ls with
  | [] => ColumnNames
  | _ => Lines ls
  end.

(** [frame.cid += n] and [frame.termnum += n]. *)
Definition add_cid (n : Z) (data : list Row) : list Row :=
  map (fun r => set_cid r (cid r + n)) data.

Definition add_termnum (n : Z) (data : list Row) : list Row :=
  map (fun r => set_termnum r (option_map (fun t => t + n) (termnum r))) data.

(** [run] on the split [(train, test)]: the content of the train file
    and of the test file. *)
Definition run (time : string) (train test : list Row)
  : result (content * content) :=
  max_row_idx <- py_max (map sid test ++ map sid train) ;;
  let train := add_cid max_row_idx train in
  let test := add_cid max_row_idx test in
  if String.eqb time "bin" then
    max_col_idx <- py_max (map cid test ++ map cid train) ;;
    let train := add_termnum max_col_idx train in
    let test := add_termnum max_col_idx test in
    ltrain <- write_libfm train "termnum" 0 ;;
    ltest <- write_libfm test "termnum" 0 ;;
    Ok (ltrain, ltest)
  else if String.eqb time "cat" then
    max_col_idx <- py_max (map cid test ++ map cid train) ;;
    ltrain <- write_libfm train "termnum" (max_col_idx + 1) ;;
    ltest <- write_libfm test "termnum" (max_col_idx + 1) ;;
    Ok (ltrain, ltest)
  else
    ltrain <- write_libfm train "" 0 ;;
    ltest <- write_libfm test "" 0 ;;
    Ok (ltrain, ltest).

End UserCourseGradeLibFM.

(** ** The result aggregator *)

Module CompareMethods.

(** A result row once the method name is inserted in front:
    [method, dim, train, test]. *)
Record result_row : Type := mkResult {
  method : string;
  dim : Z;
  train_error : Q;
  test_error : Q
}.

(** [key=lambda tup: tup[-1]], compared by [sorted]. *)
Definition test_leb (a b : result_row) : bool :=
  Qle_bool (test_error a) (test_error b).


(** [sorted(rows, key=lambda tup: tup[-1])]: ascending and stable. *)
Definition sorted (rows : list result_row) : list result_row :=
  Frame.sort test_leb rows.

(** The slice [l[:n]]; a negative [n] counts from the end. *)
Definition slice_to {A : Type} (n : Z) (l : list A) : list A :=
  if n <? 0
  then firstn (Z.to_nat (Z.of_nat (List.length l) + n)) l
  else firstn (Z.to_nat n) l.

(** The rows of one input with the method name inserted. *)
Definition tag (method_name : string) (rows : list (Z * Q * Q)) : list result_row :=
  map (fun r => mkResult method_name (fst (fst r)) (snd (fst r)) (snd r)) rows.

(** The rows kept for one method. *)
Definition keep (topn : Z) (input : string * list (Z * Q * Q)) : list result_row :=
  slice_to topn (sorted (tag (fst input) (snd input))).

(** The loop of [run]: [results] grows by the kept rows of each input. *)
Fixpoint collect (topn : Z) (inputs : list (string * list (Z * Q * Q)))
    (results : list result_row) : list result_row :=
  match inputs with
  | [] => results
  | input :: rest => collect topn rest (results ++ keep topn input)
  end.

(** [run]: the rows written under the header. *)
Definition run (topn : Z) (inputs : list (string * list (Z * Q * Q)))
  : list result_row :=
  sorted (collect topn inputs []).

End CompareMethods.

(** ** Names derived from a configuration *)

Module Naming.

(** The [%d] conversion of an integer: decimal digits, with a minus
    sign for a negative number. *)
Definition fmt_int (z : Z) : string :=
  NilZero.string_of_int (Z.to_int z).

(** [TrainTestFilter.__str__]: ['%d_%dT%d_%d']. *)
Definition __str__ (f : TrainTestFilter.t) : string :=
  (fmt_int (TrainTestFilter.cohort_start f) ++ "_" ++
   fmt_int (TrainTestFilter.cohort_end f) ++ "T" ++
   fmt_int (TrainTestFilter.term_start f) ++ "_" ++
   fmt_int (TrainTestFilter.term_end f))%string.

(** [sep.join(pieces)]. *)
Fixpoint join (sep : string) (pieces : list string) : string :=
  match pieces with
  | [] => EmptyString
  | [p] => p
  | p :: ps => (p ++ sep ++ join sep ps)%string
  end.

End Naming.

(** ** Output paths of the split and solver tasks *)

Module Paths.

(** Truth value of a string: the empty string is false. *)
Definition nonempty (s : string) : bool :=
  match s with
  | EmptyString => false
  | String _ _ => true
  end.

(** [os.path.join(a, b)] on POSIX paths. *)
Definition path_join (a b : string) : string :=
  match b with
  | String "/" _ => b
  | _ =>
      match a with
      | EmptyString => b
      | _ =>
          match last (list_ascii_of_string a) " "%char with
          | "/"%char => (a ++ b)%string
          | _ => (a ++ "/" ++ b)%string
          end
      end
  end.

(** [os.path.basename(p)]: what follows the last slash. *)
Definition basename (p : string) : string :=
  last (TrainTestFilter.split "/" p) EmptyString.

(** [template % arg] for one string argument.  [used] tells whether the
    argument has been consumed.  The conversions [%s] and [%%] are
    covered; any other conversion is reported as an error here. *)
Fixpoint percent (template arg : string) (used : bool) : result string :=
  match template with
  | EmptyString => if used then Ok EmptyString else Raise "TypeError"
  | String c rest =>
      if Ascii.eqb c "%" then
        match rest with
        | EmptyString => Raise "ValueError"
        | String d rest' =>
            if Ascii.eqb d "s" then
              if used then Raise "TypeError"
              else r <- percent rest' arg true ;; Ok (arg ++ r)%string
            else if Ascii.eqb d "%" then
              r <- percent rest' arg used ;; Ok (String "%" r)
            else Raise "ValueError"
        end
      else r <- percent rest arg used ;; Ok (String c r)
  end.

(** [UsesTrainTestSplit.output_base_fname], from the class attributes
    [base], [ext], [prefix], [suffix] and the split parameters: the
    template ['{}.%s.{}'.format(fbase, ext)]. *)
Definition output_base_fname (base ext prefix suffix : string)
    (filters : list TrainTestFilter.t) (discard_nongrade : bool)
    (backfill_cold_students backfill_cold_courses : nat) : string :=
  let parts := if nonempty prefix then [prefix] else [] in
  let param_suffix := Naming.join "-" (map Naming.__str__ filters) in
  let parts := if nonempty param_suffix then parts ++ [param_suffix] else parts in
  let parts := if negb discard_nongrade then parts ++ ["ng"] else parts in
  let parts :=
    if (backfill_cold_students =? 0)%nat then parts
    else parts ++ [("scs" ++ Naming.fmt_int (Z.of_nat backfill_cold_students))%string] in
  let parts :=
    if (backfill_cold_courses =? 0)%nat then parts
    else parts ++ [("ccs" ++ Naming.fmt_int (Z.of_nat backfill_cold_courses))%string] in
  let parts := if nonempty suffix then parts ++ [suffix] else parts in
  let fbase := path_join base (Naming.join "-" parts) in
  (fbase ++ ".%s." ++ ext)%string.

(** [RunLibFM.output] for the task class [cname]; [std_text] is
    [str(self.init_stdev)].  The class attributes are [base] =
    'outcomes', [ext] = 'tsv' and the inherited [prefix] = 'ucg'. *)
Definition runlibfm_output (cname : string)
    (filters : list TrainTestFilter.t) (discard_nongrade : bool)
    (bs bc : nat) (time : string) (iterations : Z) (std_text : string)
    (use_bias : bool) : result string :=
  let parts := if nonempty time then [("time-" ++ time)%string] else [] in
  let parts := parts ++ [("i" ++ Naming.fmt_int iterations)%string] in
  let std := ("s" ++ Naming.join "" (TrainTestFilter.split "." std_text))%string in
  let parts := parts ++ [std] in
  let parts := if use_bias then parts ++ ["b"] else parts in
  let suffix := Naming.join "-" parts in
  let base_fname := output_base_fname "outcomes" "tsv" "ucg" suffix filters
                      discard_nongrade bs bc in
  percent base_fname cname false.

(** [RunAllOnSplit.extract_method_name]:
    [os.path.basename(outfile).split('-')[0]]. *)
Definition extract_method_name (outfile : string) : string :=
  hd EmptyString (TrainTestFilter.split "-" (basename outfile)).

End Paths.

(** ** The results table *)

Module ResultsMarkdownTable.

Definition newline : ascii := "010"%char.

Definition tab : ascii := "009"%char.

(** [f.readline()] and what is left for [f.read()]: the first line with
    its newline, and the rest of the text. *)
Fixpoint readline (text : string) : string * string :=
  match text with
  | EmptyString => (EmptyString, EmptyString)
  | String c text' =>
      if Ascii.eqb c newline then (String c EmptyString, text')
      else let (line, rest) := readline text' in (String c line, rest)
  end.

(** [l[i]]. *)
Definition item {A : Type} (l : list A) (i : nat) : result A :=
  match nth_error l i with
  | Some x => Ok x
  | None => Raise "IndexError"
  end.

(** [ch * n]. *)
Fixpoint repeat_char (ch : ascii) (n : nat) : string :=
  match n with
  | O => EmptyString
  | S n' => String ch (repeat_char ch n')
  end.

(** [s.ljust(n)] and [s.rjust(n)]: padding with spaces, never cutting. *)
Definition ljust (s : string) (n : nat) : string :=
  (s ++ repeat_char " " (n - String.length s))%string.

Definition rjust (s : string) (n : nat) : string :=
  (repeat_char " " (n - String.length s) ++ s)%string.

Definition margin : nat := 4.

(** Column [i] of [np.array(lengths).max(axis=0)]. *)
Definition col_width (i : nat) (rows : list (list string)) : nat :=
  fold_right (fun r m => Nat.max (String.length (nth i r EmptyString)) m)
    0%nat rows.

(** [np.array([[len(item) ...] ...]).max(axis=0)], as far as
    [widths + margin] goes through: the rows must all have the length
    of the first one; rows of different lengths give no rectangular
    array and the sum with [margin] raises. *)
Definition widths (rows : list (list string)) : result (list nat) :=
  match rows with
  | [] => Raise "ValueError"
  | r :: rs =>
      if forallb (fun x => (List.length x =? List.length r)%nat) rs
      then Ok (map (fun i => col_width i rows) (seq 0 (List.length r)))
      else Raise "TypeError"
  end.

(** [format_row], joined to a line. *)
Definition format_row (colwidths : list nat) (row : list string)
  : result string :=
  r0 <- item row 0 ;; w0 <- item colwidths 0 ;;
  r1 <- item row 1 ;; w1 <- item colwidths 1 ;;
  r2 <- item row 2 ;; w2 <- item colwidths 2 ;;
  r3 <- item row 3 ;; w3 <- item colwidths 3 ;;
  Ok (ljust r0 w0 ++ rjust r1 w1 ++ rjust r2 w2 ++ rjust r3 w3)%string.

Section Formatting.

(** [fmt % float(cell)] for the format ['%.{}f'.format(precision)]:
    the text of the number with the given number of decimals, or
    ValueError when the cell is no number. *)
Variable fmt_float : string -> result string.

(** The loop body of [read_results]: cells 2 and 3 are reformatted. *)
Definition format_cells (row : list string) : result (list string) :=
  match row with
  | a :: b :: c :: rest =>
      c' <- fmt_float c ;;
      match rest with
      | d :: rest' => d' <- fmt_float d ;; Ok (a :: b :: c' :: d' :: rest')
      | [] => Raise "IndexError"
      end
  | _ => Raise "IndexError"
  end.

(** [read_results] on the text of the comparison file. *)
Definition read_results (text : string)
  : result (list string * list (list string)) :=
  let (first, content) := readline text in
  let header := TrainTestFilter.split tab (PyStr.strip first) in
  let rows :=
    map (TrainTestFilter.split tab) (TrainTestFilter.split newline content) in
  rows <- mapM format_cells rows ;;
  Ok (header, rows).

(** [run]: the lines of the table. *)
Definition run (text : string) : result (list string) :=
  hr <- read_results text ;;
  ws <- widths (snd hr) ;;
  let colwidths := map (fun w => (w + margin)%nat) ws in
  let underlines := map (repeat_char "-") ws in
  h <- format_row colwidths (fst hr) ;;
  u <- format_row colwidths underlines ;;
  body <- mapM (format_row colwidths) (snd hr) ;;
  Ok (h :: u :: body).

End Formatting.

End ResultsMarkdownTable.

(** ** Task output names *)

Module BasicLuigiTask.

(** [c.isupper()] and [c.lower()] on one character of a class name
    (ASCII letters). *)
Definition isupper (c : ascii) : bool :=
  let n := nat_of_ascii c in
  ((65 <=? n) && (n <=? 90))%nat.

Definition lower_char (c : ascii) : ascii :=
  if isupper c then ascii_of_nat (nat_of_ascii c + 32) else c.

(** [s.lower()]. *)
Fixpoint lower (s : string) : string :=
  match s with
  | EmptyString => EmptyString
  | String c s' => String (lower_char c) (lower s')
  end.

(** The loop of [fname_from_cname]: [words] are the finished words,
    [chars] the characters of the word being read. *)
Fixpoint read_words (words : list string) (chars rest : string) : list string :=
  match rest with
  | EmptyString => words ++ [chars]
  | String c rest' =>
      if isupper c
      then read_words (words ++ [chars]) (String c EmptyString) rest'
      else read_words words (chars ++ String c EmptyString)%string rest'
  end.

(** [fname_from_cname]; [cname[0]] raises on the empty name. *)
Definition fname_from_cname (cname : string) : result string :=
  match cname with
  | EmptyString => Raise "IndexError"
  | String c rest =>
      Ok (Naming.join "-" (map lower (read_words [] (String c EmptyString) rest)))
  end.

End BasicLuigiTask.

(** ** Identifier maps *)

Module IdMap.

Section Keys.

Context {K : Type} (eqb : K -> K -> bool).

(** [frame[ids].drop_duplicates()] on the key columns: the first row of
    each key stays. *)
Fixpoint first_seen (seen l : list K) : list K :=
  match l with
  | [] => []
  | k :: l' =>
      if existsb (eqb k) seen then first_seen seen l'
      else k :: first_seen (k :: seen) l'
  end.

(** [drop_duplicates().reset_index()[ids]], written with its index:
    the rows (index, key) of the map file. *)
Definition id_map (keys : list K) : list (nat * K) :=
  let distinct := first_seen [] keys in
  combine (seq 0 (List.length distinct)) distinct.

(** [courses.merge(idmap, how='left', on=ids)], reduced to the id
    column: each row with the index of every map row of its key, or
    with a missing id when the map has no such row. *)
Definition merge_left {R : Type} (key : R -> K) (rows : list R)
    (idmap : list (nat * K)) : list (R * option nat) :=
  flat_map
    (fun r =>
       match filter (fun e => eqb (snd e) (key r)) idmap with
       | [] => [(r, None)]
       | matches => map (fun e => (r, Some (fst e))) matches
       end)
    rows.

(** [map_ids]: the courses joined with the id map built from the same
    courses. *)
Definition map_ids {R : Type} (key : R -> K) (courses : list R)
  : list (R * option nat) :=
  merge_left key courses (id_map (map key courses)).

(** Position of the first occurrence of [k] in [l] (the length of [l]
    when there is none). *)
Fixpoint index_of (k : K) (l : list K) : nat :=
  match l with
  | [] => 0
  | x :: l' => if eqb x k then 0 else S (index_of k l')
  end.

End Keys.

End IdMap.

(** ** Sample data *)

Module Examples.

(** An enrollment of student [s] in course [c] in term [t], of a
    student admitted in term 0. *)
Definition enrol (s c t : Z) (g : string) (p : Q) : Row :=
  mkRow s c None (Some t) (Some 0) (Str g) (Num p).

(** A train frame that knows student 1 only, and a test frame with two
    rows of student 2, one of student 1 and one of student 3. *)
Definition ex_train : list Row := [enrol 1 10 0 "A" (4 # 1)].

Definition ex_test : list Row :=
  [enrol 2 10 1 "B" (3 # 1); enrol 2 11 1 "C" (2 # 1);
   enrol 1 11 1 "A" (4 # 1); enrol 3 10 1 "B" (3 # 1)].

(** A record of cohort 2 taken in term 15, one term past [term_max]. *)
Definition late_term : Row := mkRow 7 3 None (Some 15) (Some 2) (Str "B") (Num (3 # 1)).

(** A record of a student without admission record: no cohort. *)
Definition no_cohort : Row := mkRow 8 3 None (Some 1) None (Str "B") (Num (3 # 1)).

(** A record with a present quality-point value that differs from the
    table entry of its grade. *)
Definition graded : Row := mkRow 1 2 None (Some 0) (Some 0) (Str "A-") (Num (37 # 10)).

(** A record whose grade code is not a key of the table. *)
Definition unlisted : Row := mkRow 1 2 None (Some 0) (Some 0) (Str "D+") (Num (13 # 10)).

(** A record whose grade is "not reported". *)
Definition not_reported : Row := mkRow 1 2 None (Some 0) (Some 0) (Str "NR") NaN.

(** A small preprocessed table: student 1 has a grade in term 0 and a
    withdrawal in term 1; student 2 has a grade and a no-credit in term
    1; the last row has no quality points. *)
Definition ex_input : list Row :=
  [enrol 1 10 0 "A" (4 # 1); enrol 1 11 1 "W" (1 # 1);
   enrol 2 10 1 "B" (3 # 1); enrol 2 12 1 "NC" (1 # 1);
   mkRow 3 10 None (Some 1) (Some 0) (Str "NR") NaN].

(** The result rows of one method, as (dim, train error, test error). *)
Definition ex_results : list (Z * Q * Q) :=
  [(1, 1 # 10, 5 # 10); (2, 1 # 10, 4 # 10); (3, 1 # 10, 3 # 10);
   (4, 1 # 10, 6 # 10); (5, 1 # 10, 2 # 10)].

(** A split for the encoder: student 1 took course 0 in term 0 (train),
    student 0 took course 1 in term 1 (test). *)
Definition fm_train : list Row := [enrol 1 0 0 "A" (4 # 1)].

Definition fm_test : list Row := [enrol 0 1 1 "B" (3 # 1)].

(** A graded record whose term code is not in the term map. *)
Definition no_term : Row :=
  mkRow 5 4 None None (Some 0) (Str "C") (Num (2 # 1)).

(** Student numbers in the order of the course table. *)
Definition ex_keys : list Z := [30; 10; 30; 20; 10].

(** A record of a table whose GRADE column is missing throughout, and
    a record with a missing grade in a column that holds strings. *)
Definition float_nan_grade : Row :=
  mkRow 1 2 None (Some 0) (Some 0) FNaN (Num (2 # 1)).

Definition object_nan_grade : Row :=
  mkRow 1 3 None (Some 0) (Some 0) CNaN (Num (2 # 1)).


End Examples.

(** ** Notions used to state properties *)

(** The (student, course) pair of a row, the subset [read_data]
    deduplicates on. *)
Definition sid_cid (r : Row) : Z * Z := (sid r, cid r).

(** A class name read with a hyphen before every capital after the
    first character, all in lower case. *)
Fixpoint hyphenate (s : string) : string :=
  match s with
  | EmptyString => EmptyString
  | String c s' =>
      if BasicLuigiTask.isupper c
      then String "-" (String (BasicLuigiTask.lower_char c) (hyphenate s'))
      else String (BasicLuigiTask.lower_char c) (hyphenate s')
  end.


(** A row whose grade is none of W, S and NC. *)
Definition has_grade (r : Row) : Prop :=
  GRADE r <> Str "W" /\ GRADE r <> Str "S" /\ GRADE r <> Str "NC".

(** * Properties *)

(** ** Generic facts *)

Lemma key_eqb_eq (x y : cell) : key_eqb x y = true -> x = y.
Proof.
  destruct x as [s| |], y as [t| |]; simpl; intro H;
    try discriminate; try reflexivity.
  apply String.eqb_eq in H. now subst.
Qed.

Lemma key_eqb_refl (x : cell) : x <> FNaN -> key_eqb x x = true.
Proof.
  destruct x as [s| |]; simpl; intro H;
    [apply String.eqb_refl | reflexivity | congruence].
Qed.

Lemma cell_ne_nan (g : cell) : cell_ne g CNaN = true.
Proof. now destruct g. Qed.

(** ** Grade to quality points *)

Section GradeFacts.

Import Grades.

(** The comparison with [np.nan] never fails, so [fill_grdpts] is the
    table lookup on every row. *)
Lemma fill_grdpts_lookup (r : Row) : fill_grdpts r = grade2pts (GRADE r).
Proof. unfold fill_grdpts. now rewrite cell_ne_nan. Qed.

Lemma find_key_none (g : cell) (items : list (cell * float)) :
  ~ In g (map fst items) ->
  find (fun kv => key_eqb (fst kv) g) items = None.
Proof.
  induction items as [|kv items IH]; simpl; intro H.
  - reflexivity.
  - destruct (key_eqb (fst kv) g) eqn:E.
    + apply key_eqb_eq in E. tauto.
    + apply IH. tauto.
Qed.

Lemma grade2pts_unlisted (g : cell) :
  ~ In g table_keys -> grade2pts g = Raise "KeyError".
Proof.
  intro H. unfold grade2pts. now rewrite (find_key_none g grade2pts_items H).
Qed.

Lemma grade2pts_listed (g : cell) :
  In g table_keys -> exists p, grade2pts g = Ok p.
Proof.
  unfold table_keys, grade2pts. intro H.
  destruct (find (fun kv => key_eqb (fst kv) g) grade2pts_items) as [kv|] eqn:E.
  - now exists (snd kv).
  - exfalso. apply in_map_iff in H as [kv [<- Hin]].
    assert (fst kv <> FNaN) as Hkey.
    { clear E. cbn in Hin.
      repeat (destruct Hin as [<- | Hin]; [discriminate|]). contradiction. }
    apply (find_none _ _ E) in Hin.
    simpl in Hin. rewrite (key_eqb_refl _ Hkey) in Hin. discriminate.
Qed.

Lemma grade2pts_missing (g : cell) :
  In g missing_keys -> grade2pts g = Ok NaN.
Proof.
  cbn. intro H.
  repeat (destruct H as [<- | H]; [reflexivity|]).
  contradiction.
Qed.

Lemma grade2pts_nan_only_missing (g : cell) :
  grade2pts g = Ok NaN -> In g missing_keys.
Proof.
  unfold grade2pts.
  destruct (find (fun kv => key_eqb (fst kv) g) grade2pts_items) as [kv|] eqn:E;
    [|discriminate].
  intro H. injection H as Hnan.
  apply find_some in E as [Hin Hk]. apply key_eqb_eq in Hk. subst g.
  unfold missing_keys. apply in_map, filter_In. split; [exact Hin|].
  now rewrite Hnan.
Qed.

End GradeFacts.

(** ** Frame operations *)

Section FrameFacts.

Import Frame.

Lemma isin_In (v : Z) (l : list Z) : isin v l = true <-> In v l.
Proof.
  unfold isin. rewrite existsb_exists. split.
  - intros [x [Hin Heq]]. apply Z.eqb_eq in Heq. now subst.
  - intro H. exists v. split; [exact H | apply Z.eqb_refl].
Qed.

Lemma insert_perm {A : Type} (leb : A -> A -> bool) (x : A) (l : list A) :
  Permutation (insert leb x l) (x :: l).
Proof.
  induction l as [|y l IH]; simpl.
  - apply Permutation_refl.
  - destruct (leb x y).
    + apply Permutation_refl.
    + eapply perm_trans; [apply perm_skip, IH | apply perm_swap].
Qed.

Lemma sort_perm {A : Type} (leb : A -> A -> bool) (l : list A) :
  Permutation (sort leb l) l.
Proof.
  induction l as [|x l IH]; simpl.
  - apply perm_nil.
  - eapply perm_trans; [apply insert_perm | apply perm_skip, IH].
Qed.

Lemma sort_In {A : Type} (leb : A -> A -> bool) (l : list A) (x : A) :
  In x (sort leb l) <-> In x l.
Proof.
  split; apply Permutation_in;
    [apply sort_perm | apply Permutation_sym, sort_perm].
Qed.

Lemma dedup_In (l : list Z) (v : Z) : In v (dedup l) <-> In v l.
Proof.
  induction l as [|x l IH]; simpl; [tauto|].
  destruct (isin x l) eqn:E.
  - rewrite IH. split; [tauto|]. intros [<- | H]; [|exact H].
    now apply isin_In.
  - simpl. now rewrite IH.
Qed.

Lemma unique_In (l : list Z) (v : Z) : In v (unique l) <-> In v l.
Proof. unfold unique. now rewrite sort_In, dedup_In. Qed.

Lemma setdiff1d_In (a b : list Z) (v : Z) :
  In v (setdiff1d a b) <-> In v a /\ ~ In v b.
Proof.
  unfold setdiff1d. rewrite filter_In, unique_In, negb_true_iff.
  assert (isin v (unique b) = true <-> In v b) as H
    by (rewrite isin_In; apply unique_In).
  destruct (isin v (unique b)); intuition congruence.
Qed.

Lemma drop_duplicates_from_In (seen l : list Row) (r : Row) :
  In r (drop_duplicates_from seen l) -> In r l.
Proof.
  revert seen. induction l as [|x l IH]; simpl; intros seen H; [exact H|].
  destruct (existsb (row_eqb x) seen).
  - right. now apply (IH seen).
  - destruct H as [H | H]; [now left | right; now apply (IH (x :: seen))].
Qed.

Lemma drop_duplicates_In (l : list Row) (r : Row) :
  In r (drop_duplicates l) -> In r l.
Proof. apply drop_duplicates_from_In. Qed.

Lemma drop_duplicates_take_last_In (l : list Row) (r : Row) :
  In r (drop_duplicates_take_last l) -> In r l.
Proof.
  induction l as [|x l IH]; simpl; intro H; [exact H|].
  destruct (existsb (same_sid_cid x) l).
  - right. now apply IH.
  - destruct H as [H | H]; [now left | right; now apply IH].
Qed.

Lemma count_key_cons (key : Row -> Z) (v : Z) (x : Row) (l : list Row) :
  count_key key v (x :: l) =
  ((if (key x =? v)%Z then 1 else 0) + count_key key v l)%nat.
Proof. unfold count_key. simpl. now destruct (key x =? v). Qed.

Lemma count_key_pos (key : Row -> Z) (r : Row) (l : list Row) :
  In r l -> (0 < count_key key (key r) l)%nat.
Proof.
  induction l as [|x l IH]; simpl; [contradiction|].
  intros [-> | H]; rewrite count_key_cons.
  - rewrite Z.eqb_refl. lia.
  - specialize (IH H). lia.
Qed.

Lemma head_from_In (key : Row -> Z) (n : nat) (seen l : list Row) (r : Row) :
  In r (head_from key n seen l) -> In r l.
Proof.
  revert seen. induction l as [|x l IH]; simpl; intros seen H; [exact H|].
  destruct (count_key key (key x) seen <? n)%nat.
  - destruct H as [H | H]; [now left | right; now apply (IH (x :: seen))].
  - right. now apply (IH (x :: seen)).
Qed.

Lemma groupby_tail_In (key : Row -> Z) (ns : list nat) (l : list Row) (r : Row) :
  In r (groupby_tail key ns l) -> In r l.
Proof.
  revert ns. induction l as [|x l IH]; simpl; intros ns H; [exact H|].
  destruct ns as [|n ns]; [contradiction|].
  destruct (count_key key (key x) l <? n)%nat.
  - destruct H as [H | H]; [now left | right; now apply (IH ns)].
  - right. now apply (IH ns).
Qed.

(** A row kept by [tail] has a positive count. *)
Lemma groupby_tail_pos (key : Row -> Z) (f : Row -> nat) (l : list Row) (r : Row) :
  In r (groupby_tail key (map f l) l) -> (0 < f r)%nat.
Proof.
  induction l as [|x l IH]; simpl; [contradiction|].
  destruct (count_key key (key x) l <? f x)%nat eqn:E.
  - intros [<- | H]; [|now apply IH].
    apply Nat.ltb_lt in E. lia.
  - exact IH.
Qed.

(** With a positive bound, [head] keeps a row of every group that has
    not started yet. *)
Lemma head_from_covers (key : Row -> Z) (n : nat) (seen l : list Row) (r : Row) :
  (0 < n)%nat -> In r l -> count_key key (key r) seen = 0%nat ->
  exists r', In r' (head_from key n seen l) /\ key r' = key r.
Proof.
  intro Hn. revert seen.
  induction l as [|x l IH]; simpl; intros seen Hin Hseen; [contradiction|].
  destruct (Z.eq_dec (key x) (key r)) as [E | E].
  - exists x. rewrite E, Hseen.
    replace (0 <? n)%nat with true by (symmetry; now apply Nat.ltb_lt).
    split; [now left | reflexivity].
  - destruct Hin as [-> | Hin]; [congruence|].
    destruct (IH (x :: seen) Hin) as [r' [H1 H2]].
    + rewrite count_key_cons.
      replace (key x =? key r) with false by (symmetry; now apply Z.eqb_neq).
      exact Hseen.
    + exists r'. split; [|exact H2].
      destruct (count_key key (key x) seen <? n)%nat; [now right | exact H1].
Qed.

(** A group that fits within the bound is kept whole by [head]. *)
Lemma head_from_small_group (key : Row -> Z) (n : nat) (seen l : list Row) (r : Row) :
  In r l ->
  (count_key key (key r) seen + count_key key (key r) l <= n)%nat ->
  In r (head_from key n seen l).
Proof.
  revert seen. induction l as [|x l IH]; simpl; intros seen Hin Hle; [contradiction|].
  rewrite count_key_cons in Hle.
  destruct Hin as [-> | Hin].
  - rewrite Z.eqb_refl in Hle.
    replace (count_key key (key r) seen <? n)%nat with true
      by (symmetry; apply Nat.ltb_lt; lia).
    now left.
  - assert (In r (head_from key n (x :: seen) l)) as H.
    { apply IH; [exact Hin|]. rewrite count_key_cons. lia. }
    destruct (count_key key (key x) seen <? n)%nat; [now right | exact H].
Qed.

(** [head(n)] and [tail(count - n)] split the grouped frame. *)
Lemma head_tail_perm (key : Row -> Z) (n : nat) (total : Z -> nat)
    (seen l : list Row) :
  (forall v, total v = (count_key key v seen + count_key key v l)%nat) ->
  Permutation
    (head_from key n seen l ++
     groupby_tail key (map (fun r => (total (key r) - n)%nat) l) l)
    l.
Proof.
  revert seen. induction l as [|x l IH]; simpl; intros seen Htot.
  - apply perm_nil.
  - assert (Hx := Htot (key x)). rewrite count_key_cons, Z.eqb_refl in Hx.
    assert (Permutation
              (head_from key n (x :: seen) l ++
               groupby_tail key (map (fun r => (total (key r) - n)%nat) l) l)
              l) as Hrec.
    { apply IH. intro v. rewrite (Htot v), !count_key_cons. lia. }
    destruct (Nat.ltb_spec (count_key key (key x) seen) n) as [E1 | E1];
      destruct (Nat.ltb_spec (count_key key (key x) l) (total (key x) - n))
        as [E2 | E2];
      try lia.
    + simpl. now apply perm_skip.
    + eapply perm_trans; [apply Permutation_sym, Permutation_middle|].
      now apply perm_skip.
Qed.

Lemma groupby_head_tail_perm (key : Row -> Z) (n : nat) (l : list Row) :
  Permutation
    (groupby_head key n l ++
     groupby_tail key (map (fun c => (c - n)%nat) (transform_count key l)) l)
    l.
Proof.
  unfold groupby_head, transform_count. rewrite map_map.
  apply (head_tail_perm key n (fun v => count_key key v l) [] l).
  reflexivity.
Qed.

Lemma filter_split_perm {A : Type} (f : A -> bool) (l : list A) :
  Permutation (filter f l ++ filter (fun a => negb (f a)) l) l.
Proof.
  induction l as [|a l IH]; simpl; [apply perm_nil|].
  destruct (f a); simpl.
  - now apply perm_skip.
  - eapply perm_trans; [apply Permutation_sym, Permutation_middle|].
    now apply perm_skip.
Qed.

End FrameFacts.

(** ** Cold-start backfill *)

Section BackfillFacts.

Import Frame DataSplitterBaseTask.

Variables (train test : list Row) (key : Row -> Z) (firstn : nat).

Lemma backfill_zero : backfill train test key 0 = (train, test).
Proof. reflexivity. Qed.

Lemma backfill_unfold :
  (0 < firstn)%nat ->
  let diff := setdiff1d (map key test) (map key train) in
  let diff_records := filter (fun r => isin (key r) diff) test in
  backfill train test key firstn =
  (train ++ groupby_head key firstn diff_records,
   filter (fun r => negb (isin (key r) diff)) test ++
   groupby_tail key
     (map (fun c => (c - firstn)%nat) (transform_count key diff_records))
     diff_records).
Proof.
  intro H. unfold backfill.
  destruct (Nat.eqb_spec firstn 0) as [E | _]; [lia | reflexivity].
Qed.

(** The two returned frames hold the rows of the two given frames, each
    as often as before. *)
Lemma backfill_perm :
  Permutation (fst (backfill train test key firstn) ++
               snd (backfill train test key firstn))
              (train ++ test).
Proof.
  destruct (Nat.eq_dec firstn 0) as [-> | Hn].
  - rewrite backfill_zero. apply Permutation_refl.
  - rewrite backfill_unfold by lia. cbv zeta. simpl fst. simpl snd.
    set (diff := setdiff1d (map key test) (map key train)).
    set (m := fun r => isin (key r) diff).
    rewrite <- app_assoc. apply Permutation_app_head.
    eapply perm_trans;
      [apply Permutation_app_head, Permutation_app_comm|].
    rewrite app_assoc.
    eapply perm_trans;
      [apply Permutation_app_tail, groupby_head_tail_perm|].
    apply (filter_split_perm m test).
Qed.

(** Rows only leave the test frame. *)
Lemma backfill_test_incl (r : Row) :
  In r (snd (backfill train test key firstn)) -> In r test.
Proof.
  destruct (Nat.eq_dec firstn 0) as [-> | Hn].
  - now rewrite backfill_zero.
  - rewrite backfill_unfold by lia. cbv zeta. simpl snd.
    rewrite in_app_iff. intros [H | H].
    + now apply filter_In in H.
    + apply groupby_tail_In in H. now apply filter_In in H.
Qed.

Lemma backfill_train_incl (r : Row) :
  In r (fst (backfill train test key firstn)) -> In r train \/ In r test.
Proof.
  destruct (Nat.eq_dec firstn 0) as [-> | Hn].
  - rewrite backfill_zero. now left.
  - rewrite backfill_unfold by lia. cbv zeta. simpl fst.
    rewrite in_app_iff. intros [H | H]; [now left | right].
    apply head_from_In in H. now apply filter_In in H.
Qed.

Lemma backfill_train_keeps (r : Row) :
  In r train -> In r (fst (backfill train test key firstn)).
Proof.
  intro H. destruct (Nat.eq_dec firstn 0) as [-> | Hn].
  - now rewrite backfill_zero.
  - rewrite backfill_unfold by lia. cbv zeta. simpl fst.
    apply in_app_iff. now left.
Qed.

End BackfillFacts.

Section BackfillClaims.

Import Frame DataSplitterBaseTask.

Lemma count_key_filter_le (key : Row -> Z) (v : Z) (f : Row -> bool) (l : list Row) :
  (count_key key v (filter f l) <= count_key key v l)%nat.
Proof.
  induction l as [|x l IH]; simpl; [lia|].
  destruct (f x); rewrite ?count_key_cons; lia.
Qed.

(** C3: backfill preserves the total number of rows, for every train
    frame, test frame, key and bound; the returned frames are a
    rearrangement of the given rows. *)
Theorem backfill_preserves_row_count
    (train test : list Row) (key : Row -> Z) (firstn : nat) :
  (List.length (fst (backfill train test key firstn)) +
   List.length (snd (backfill train test key firstn)) =
   List.length train + List.length test)%nat /\
  Permutation (fst (backfill train test key firstn) ++
               snd (backfill train test key firstn))
              (train ++ test).
Proof.
  split; [|apply backfill_perm].
  rewrite <- !length_app. apply Permutation_length, backfill_perm.
Qed.

(** C2: with a positive bound, every key of the returned test frame is
    a key of the returned train frame; and a key absent from the given
    train frame whose test group has at most [firstn] rows is absent
    from the returned test frame, all its rows being in the returned
    train frame. *)
Theorem backfill_covers_test_keys
    (train test : list Row) (key : Row -> Z) (firstn : nat)
    (HF : (0 < firstn)%nat) :
  let out := backfill train test key firstn in
  (forall r, In r (snd out) ->
     exists r', In r' (fst out) /\ key r' = key r) /\
  (forall v, ~ In v (map key train) ->
     (count_key key v test <= firstn)%nat ->
     ~ In v (map key (snd out)) /\
     (forall r, In r test -> key r = v -> In r (fst out))).
Proof.
  cbv zeta. rewrite backfill_unfold by exact HF. cbv zeta. simpl fst. simpl snd.
  set (diff := setdiff1d (map key test) (map key train)).
  set (diff_records := filter (fun r => isin (key r) diff) test).
  assert (Hcold : forall r, In r test -> ~ In (key r) (map key train) ->
                            In r diff_records).
  { intros r Hr Hn. apply filter_In. split; [exact Hr|].
    apply isin_In, setdiff1d_In. split; [now apply in_map | exact Hn]. }
  split.
  - intros r Hr. apply in_app_iff in Hr as [Hr | Hr].
    + apply filter_In in Hr as [Hr Hm].
      destruct (in_dec Z.eq_dec (key r) (map key train)) as [Hin | Hout].
      * apply in_map_iff in Hin as [r' [Hk Hin]].
        exists r'. split; [apply in_app_iff; now left | exact Hk].
      * apply Hcold in Hout; [|exact Hr].
        apply filter_In in Hout as [_ Hm'].
        rewrite Hm' in Hm. discriminate.
    + apply groupby_tail_In in Hr.
      destruct (head_from_covers key firstn [] diff_records r HF Hr eq_refl)
        as [r' [H1 H2]].
      exists r'. split; [apply in_app_iff; now right | exact H2].
  - intros v Hv Hcount. split.
    + intro Hin. apply in_map_iff in Hin as [r [Hk Hr]].
      subst v. apply in_app_iff in Hr as [Hr | Hr].
      * apply filter_In in Hr as [Hr Hm].
        apply (Hcold r Hr) in Hv. apply filter_In in Hv as [_ Hm'].
        rewrite Hm' in Hm. discriminate.
      * unfold transform_count in Hr. rewrite map_map in Hr.
        apply (groupby_tail_pos key
                 (fun r => (count_key key (key r) diff_records - firstn)%nat))
          in Hr.
        assert (Hle := count_key_filter_le key (key r)
                         (fun r => isin (key r) diff) test).
        fold diff_records in Hle. lia.
    + intros r Hr Hk. subst v. apply in_app_iff. right.
      apply head_from_small_group; [now apply Hcold|].
      assert (Hle := count_key_filter_le key (key r)
                       (fun r => isin (key r) diff) test).
      fold diff_records in Hle. unfold count_key at 1. simpl. lia.
Qed.

Lemma backfill_covers_test_keys_witness :
  (0 < 1)%nat /\
  let out := backfill Examples.ex_train Examples.ex_test sid 1 in
  (forall r, In r (snd out) ->
     exists r', In r' (fst out) /\ sid r' = sid r) /\
  (forall v, ~ In v (map sid Examples.ex_train) ->
     (count_key sid v Examples.ex_test <= 1)%nat ->
     ~ In v (map sid (snd out)) /\
     (forall r, In r Examples.ex_test -> sid r = v -> In r (fst out))).
Proof.
  split; [lia|].
  apply (backfill_covers_test_keys Examples.ex_train Examples.ex_test sid 1).
  lia.
Defined.

(** The sample frames, backfilled by student with bound 1: the first row
    of student 2 and the only row of student 3 move to train. *)
Example backfill_sample :
  backfill Examples.ex_train Examples.ex_test sid 1 =
  ([Examples.enrol 1 10 0 "A" (4 # 1); Examples.enrol 2 10 1 "B" (3 # 1);
    Examples.enrol 3 10 1 "B" (3 # 1)],
   [Examples.enrol 1 11 1 "A" (4 # 1); Examples.enrol 2 11 1 "C" (2 # 1)]).
Proof. reflexivity. Qed.

End BackfillClaims.

(** ** Cohort/term filters *)

Section FilterClaims.

Import TrainTestFilter.

Lemma mask_true_iff (f : t) (r : Row) :
  mask f r = true <->
  exists c tn, cohort r = Some c /\ termnum r = Some tn /\
               cohort_start f <= c <= cohort_end f /\
               term_start f <= tn <= term_end f.
Proof.
  unfold mask, ge_cell, le_cell.
  destruct (cohort r) as [c|], (termnum r) as [tn|]; simpl;
    rewrite ?andb_false_r; simpl.
  - rewrite !andb_true_iff, !Z.leb_le. split.
    + intros [[[H1 H2] H3] H4]. exists c, tn. repeat split; assumption.
    + intros [c' [tn' [Hc [Ht [[H1 H2] [H3 H4]]]]]].
      injection Hc as <-. injection Ht as <-. repeat split; assumption.
  - split; [discriminate|]. intros [c' [tn' [_ [Ht _]]]]. discriminate.
  - split; [discriminate|]. intros [c' [tn' [Hc _]]]. discriminate.
  - split; [discriminate|]. intros [c' [tn' [Hc _]]]. discriminate.
Qed.

(** C7: for every filter and every record set, [train] and [test]
    partition the set: together they hold each record as often as the
    set does, a record of the set is on one side, and no record is on
    both. *)
Theorem train_test_partition (f : t) (data : list Row) :
  Permutation (train f data ++ test f data) data /\
  (forall r, In r data <-> In r (train f data) \/ In r (test f data)) /\
  (forall r, ~ (In r (train f data) /\ In r (test f data))).
Proof.
  unfold train, test. split; [apply filter_split_perm|]. split.
  - intro r. rewrite !filter_In. destruct (mask f r); simpl; intuition.
  - intros r [H1 H2]. apply filter_In in H1 as [_ H1].
    apply filter_In in H2 as [_ H2]. rewrite H1 in H2. discriminate.
Qed.

(** C10: a record whose cohort or term number is missing is never in
    [train] and always in [test]. *)
Theorem missing_cohort_or_term_is_test (f : t) (data : list Row) (r : Row)
    (Hin : In r data) (Hnan : cohort r = None \/ termnum r = None) :
  ~ In r (train f data) /\ In r (test f data).
Proof.
  assert (mask f r = false) as Hm.
  { destruct (mask f r) eqn:E; [|reflexivity].
    apply mask_true_iff in E as [c [tn [Hc [Ht _]]]].
    destruct Hnan; congruence. }
  unfold train, test. rewrite !filter_In, Hm. split.
  - intros [_ H]. discriminate.
  - now split.
Qed.

Lemma missing_cohort_or_term_is_test_witness :
  In Examples.no_cohort [Examples.late_term; Examples.no_cohort] /\
  (cohort Examples.no_cohort = None \/ termnum Examples.no_cohort = None) /\
  ~ In Examples.no_cohort
      (train (mk 0 14 0 14) [Examples.late_term; Examples.no_cohort]) /\
  In Examples.no_cohort
      (test (mk 0 14 0 14) [Examples.late_term; Examples.no_cohort]).
Proof.
  assert (In Examples.no_cohort [Examples.late_term; Examples.no_cohort]) as H1
    by (simpl; tauto).
  assert (cohort Examples.no_cohort = None \/
          termnum Examples.no_cohort = None) as H2 by (left; reflexivity).
  split; [exact H1|]. split; [exact H2|].
  exact (missing_cohort_or_term_is_test (mk 0 14 0 14) _ _ H1 H2).
Defined.

End FilterClaims.

(** ** Parsing a filter specification *)

Section ParseFacts.

Import TrainTestFilter.

Lemma contains_app (c : ascii) (s1 s2 : string) :
  contains c (s1 ++ s2)%string = contains c s1 || contains c s2.
Proof.
  induction s1 as [|a s1 IH]; simpl; [reflexivity|].
  now rewrite IH, orb_assoc.
Qed.

Lemma split_absent (c : ascii) (s : string) :
  contains c s = false -> split c s = [s].
Proof.
  induction s as [|a s IH]; simpl; [reflexivity|].
  intro H. apply orb_false_iff in H as [H1 H2].
  now rewrite H1, (IH H2).
Qed.

Lemma split_first (c : ascii) (s1 s2 : string) :
  contains c s1 = false ->
  split c (s1 ++ String c s2)%string = s1 :: split c s2.
Proof.
  induction s1 as [|a s1 IH]; simpl; intro H.
  - now rewrite Ascii.eqb_refl.
  - apply orb_false_iff in H as [H1 H2]. now rewrite H1, (IH H2).
Qed.

Lemma digits_no_char (c : ascii) (s : string) (acc n : Z) :
  digit c = None -> digits acc s = Ok n -> contains c s = false.
Proof.
  intro Hc. revert acc. induction s as [|a s IH]; simpl; intros acc H.
  - reflexivity.
  - destruct (digit a) as [d|] eqn:Ed; [|discriminate].
    rewrite (IH _ H), orb_false_r.
    destruct (Ascii.eqb_spec a c) as [-> | _]; [congruence | reflexivity].
Qed.

(** A literal that [int_literal] accepts holds neither separator. *)
Lemma int_literal_no_char (c : ascii) (s : string) (n : Z) :
  digit c = None -> c <> "+"%char -> int_literal s = Ok n ->
  contains c s = false.
Proof.
  intros Hc Hplus. destruct s as [|a s]; [reflexivity|].
  unfold int_literal. destruct (Ascii.eqb_spec a "+") as [-> | Ha].
  - intro H. cbn [contains].
    destruct (Ascii.eqb_spec "+" c) as [E | _]; [congruence|].
    destruct s as [|b s]; [discriminate|].
    exact (digits_no_char c _ _ _ Hc H).
  - intro H.
    exact (digits_no_char c (String a s) _ _ Hc H).
Qed.

Lemma space_neq (a c : ascii) :
  PyStr.is_space a = true -> PyStr.is_space c = false -> Ascii.eqb a c = false.
Proof.
  intros Ha Hc.
  destruct (Ascii.eqb_spec a c) as [-> | _]; [congruence | reflexivity].
Qed.

Lemma lstrip_contains (c : ascii) (s : string) :
  PyStr.is_space c = false -> contains c (PyStr.lstrip s) = contains c s.
Proof.
  intro Hc. induction s as [|a s IH]; [reflexivity|].
  cbn [PyStr.lstrip]. destruct (PyStr.is_space a) eqn:Ea; [|reflexivity].
  cbn [contains]. now rewrite IH, (space_neq a c Ea Hc).
Qed.

Lemma rstrip_contains (c : ascii) (s : string) :
  PyStr.is_space c = false -> contains c (PyStr.rstrip s) = contains c s.
Proof.
  intro Hc. induction s as [|a s IH]; [reflexivity|].
  cbn [PyStr.rstrip contains]. rewrite <- IH.
  destruct (PyStr.rstrip s) as [|b t]; [|reflexivity].
  destruct (PyStr.is_space a) eqn:Ea; [|reflexivity].
  cbn [contains]. now rewrite (space_neq a c Ea Hc).
Qed.

(** A piece that [int] accepts holds neither separator. *)
Lemma int_no_char (c : ascii) (s : string) (n : Z) :
  c = ":"%char \/ c = "-"%char -> int s = Ok n -> contains c s = false.
Proof.
  intros Hc H. unfold int, PyStr.strip in H.
  assert (PyStr.is_space c = false) as Hs by (destruct Hc; subst; reflexivity).
  rewrite <- (lstrip_contains c s Hs), <- (rstrip_contains c _ Hs).
  apply (int_literal_no_char c _ n); [| |exact H];
    destruct Hc; subst; (reflexivity || discriminate).
Qed.

(** A specification "A-B" without colon parses to the cohort range
    [A, B] and the term range [0, term_max]; [train] for that filter
    holds the records with A <= cohort <= B whose term number is at
    least 0 and at most the constant [term_max]. *)
Theorem init_cohort_range (A B : string) (a b : Z)
    (HA : int A = Ok a) (HB : int B = Ok b) :
  init (A ++ "-" ++ B)%string = Ok (mk a b 0 term_max) /\
  term_max = 14 /\
  (forall data r,
     In r (train (mk a b 0 term_max) data) <->
     In r data /\
     exists c tn, cohort r = Some c /\ termnum r = Some tn /\
                  a <= c <= b /\ 0 <= tn <= 14).
Proof.
  split; [|split; [reflexivity|]].
  - unfold init.
    assert (contains ":" (A ++ "-" ++ B)%string = false) as Hcolon.
    { rewrite !contains_app.
      rewrite (int_no_char ":" A a), (int_no_char ":" B b);
        try reflexivity; try assumption; now left. }
    rewrite Hcolon.
    change (A ++ "-" ++ B)%string with (A ++ String "-" B)%string.
    rewrite split_first
      by (apply (int_no_char "-" A a); [now right | exact HA]).
    rewrite split_absent
      by (apply (int_no_char "-" B b); [now right | exact HB]).
    simpl. rewrite HA. simpl. rewrite HB. reflexivity.
  - intros data r. unfold train. rewrite filter_In, mask_true_iff. reflexivity.
Qed.

Lemma init_cohort_range_witness :
  int "0" = Ok 0 /\ int "4" = Ok 4 /\
  init "0-4" = Ok (mk 0 4 0 term_max) /\
  term_max = 14 /\
  (forall data r,
     In r (train (mk 0 4 0 term_max) data) <->
     In r data /\
     exists c tn, cohort r = Some c /\ termnum r = Some tn /\
                  0 <= c <= 4 /\ 0 <= tn <= 14).
Proof.
  split; [reflexivity|]. split; [reflexivity|].
  exact (init_cohort_range "0" "4" 0 4 eq_refl eq_refl).
Defined.

(** C9: [term_max] is the fixed number 14, not a number greater than
    every term id.  The filter "0-4" parses to the cohort range [0, 4]
    and the term range [0, 14]; a record of cohort 2 taken in term 15
    has its cohort in range and yet is not in [train] but in [test].
    The same holds for every filter "A-B": no record of a term past 14
    is in its [train]. *)
Lemma term_past_term_max_not_train :
  init "0-4" = Ok (mk 0 4 0 14) /\
  cohort Examples.late_term = Some 2 /\
  termnum Examples.late_term = Some 15 /\
  train (mk 0 4 0 14) [Examples.late_term] = [] /\
  test (mk 0 4 0 14) [Examples.late_term] = [Examples.late_term] /\
  (forall A B a b, int A = Ok a -> int B = Ok b ->
     init (A ++ "-" ++ B)%string = Ok (mk a b 0 14) /\
     forall data r tn, termnum r = Some tn -> 14 < tn ->
       ~ In r (train (mk a b 0 14) data)).
Proof.
  do 5 (split; [reflexivity|]).
  intros A B a b HA HB.
  destruct (init_cohort_range A B a b HA HB) as [Hinit [_ Htrain]].
  split; [exact Hinit|].
  intros data r tn Hr Htn Hin.
  apply Htrain in Hin as [_ [c [tn' [_ [Htn' [_ Hle]]]]]].
  rewrite Hr in Htn'. injection Htn' as <-. lia.
Qed.

End ParseFacts.

(** ** The splitter *)

Section SplitterFacts.

Import Frame DataSplitterBaseTask.

Variables (filters : list TrainTestFilter.t) (discard_nongrade : bool).
Variables (backfill_cold_students backfill_cold_courses : nat).
Variable input : list Row.

Lemma split_data_raises : filters = [] ->
  split_data filters discard_nongrade backfill_cold_students
    backfill_cold_courses input = Raise "ValueError".
Proof. intros ->. reflexivity. Qed.

Lemma split_data_returns : filters <> [] ->
  split_data filters discard_nongrade backfill_cold_students
    backfill_cold_courses input =
  Ok (let b := backfill (train_before filters discard_nongrade input)
                (test_before filters input) sid backfill_cold_students in
      backfill (fst b) (snd b) cid backfill_cold_courses).
Proof.
  intro H. unfold split_data, train_before, test_before, graded_only, sorted_data.
  destruct filters as [|f fs]; [congruence|].
  cbn [map concat_frames bind]. cbv zeta.
  destruct (backfill _ _ sid backfill_cold_students) as [tr1 te1].
  simpl fst. simpl snd.
  now destruct (backfill tr1 te1 cid backfill_cold_courses) as [tr2 te2].
Qed.

Lemma graded_only_In (l : list Row) (r : Row) :
  In r (graded_only l) ->
  In r l /\ GRADE r <> Str "W" /\ GRADE r <> Str "S" /\ GRADE r <> Str "NC".
Proof.
  unfold graded_only. rewrite filter_In, negb_true_iff.
  intros [Hin Hg]. split; [exact Hin|].
  repeat split; intro E; rewrite E in Hg; discriminate.
Qed.

Lemma concat_filter_In (p : TrainTestFilter.t -> Row -> bool) (data : list Row) (r : Row) :
  In r (List.concat (map (fun f => filter (p f) data) filters)) -> In r data.
Proof.
  intro H. apply in_concat in H as [l [Hl Hr]].
  apply in_map_iff in Hl as [f [<- _]]. now apply filter_In in Hr.
Qed.

Lemma sorted_data_In (r : Row) :
  In r (sorted_data input) -> In r input /\ isnull (grdpts r) = false.
Proof.
  unfold sorted_data, read_data. rewrite sort_In, filter_In, negb_true_iff.
  intros [H1 H2]. split; [now apply drop_duplicates_take_last_In | exact H2].
Qed.

Lemma train_before_In (r : Row) : In r (train_before filters discard_nongrade input) -> In r (sorted_data input).
Proof.
  unfold train_before. cbv zeta. intro H.
  assert (In r (drop_duplicates
                  (List.concat
                     (map (fun f => TrainTestFilter.train f (sorted_data input)) filters))))
    as H'.
  { destruct discard_nongrade; [now apply graded_only_In in H | exact H]. }
  apply drop_duplicates_In in H'.
  exact (concat_filter_In TrainTestFilter.mask _ _ H').
Qed.

Lemma test_before_In (r : Row) :
  In r (test_before filters input) ->
  In r (sorted_data input) /\
  GRADE r <> Str "W" /\ GRADE r <> Str "S" /\ GRADE r <> Str "NC".
Proof.
  unfold test_before. intro H. apply graded_only_In in H as [H Hg].
  split; [|exact Hg]. apply drop_duplicates_In in H.
  exact (concat_filter_In (fun f r => negb (TrainTestFilter.mask f r)) _ _ H).
Qed.

End SplitterFacts.

Section SplitterClaims.

Import Frame DataSplitterBaseTask.

(** The rows of both returned frames are rows of the sorted data, and
    those of the test frame passed the W/S/NC filter. *)
Lemma split_data_rows (filters : list TrainTestFilter.t) (dn : bool)
    (bs bc : nat) (input train test : list Row) :
  split_data filters dn bs bc input = Ok (train, test) ->
  filters <> [] /\
  (forall r, In r train -> In r (sorted_data input)) /\
  (forall r, In r test -> In r (test_before filters input)).
Proof.
  intro H. destruct filters as [|f fs] eqn:Ef.
  - rewrite split_data_raises in H by reflexivity. discriminate.
  - rewrite <- Ef in *. assert (filters <> []) as Hne by (rewrite Ef; discriminate).
    rewrite split_data_returns in H by exact Hne. cbv zeta in H.
    injection H as H.
    assert (Htest : forall r, In r test -> In r (test_before filters input)).
    { intros r Hr.
      assert (In r (snd (train, test))) as Hr' by exact Hr.
      rewrite <- H in Hr'.
      now apply backfill_test_incl, backfill_test_incl in Hr'. }
    split; [exact Hne|]. split; [|exact Htest].
    intros r Hr.
    assert (In r (fst (train, test))) as Hr' by exact Hr.
    rewrite <- H in Hr'.
    apply backfill_train_incl in Hr' as [Hr' | Hr'].
    + apply backfill_train_incl in Hr' as [Hr' | Hr'].
      * now apply train_before_In in Hr'.
      * now apply test_before_In in Hr'.
    + apply backfill_test_incl in Hr'. now apply test_before_In in Hr'.
Qed.

(** C6: whatever the filters, the discard option and the two backfill
    bounds, [split_data] returns a split unless there is no filter at
    all, and no record of the returned test split has grade W, S or
    NC. *)
Theorem split_data_test_excludes_nongrade
    (filters : list TrainTestFilter.t) (dn : bool) (bs bc : nat)
    (input : list Row) :
  match split_data filters dn bs bc input with
  | Ok (train, test) =>
      filters <> [] /\
      forall r, In r test ->
        GRADE r <> Str "W" /\ GRADE r <> Str "S" /\ GRADE r <> Str "NC"
  | Raise _ => filters = []
  end.
Proof.
  destruct (split_data filters dn bs bc input) as [[train test]|e] eqn:E.
  - apply split_data_rows in E as [Hne [_ Htest]].
    split; [exact Hne|]. intros r Hr.
    now apply Htest, test_before_In in Hr.
  - destruct filters as [|f fs]; [reflexivity|].
    rewrite split_data_returns in E by discriminate. discriminate.
Qed.

(** The sample table split at term 0, W/S/NC left in train, students
    backfilled with bound 1: the withdrawal and the no-credit of term 1
    are in neither frame. *)
Example split_data_sample :
  split_data [TrainTestFilter.mk 0 14 0 0] false 1 0 Examples.ex_input =
  Ok ([Examples.enrol 1 10 0 "A" (4 # 1); Examples.enrol 2 10 1 "B" (3 # 1)],
      []).
Proof. reflexivity. Qed.

(** C5, as the code has it: a grade code that the table lists with a
    missing value (NR, AU, REG, IX, IP, "nan", or the missing grade that
    is the object [np.nan] itself) is resolved to missing quality points
    without an error, and a record with missing quality points is in
    neither frame of any split, which fails for an empty filter list
    only; a grade code that is not a key of the table makes the
    resolution raise KeyError, and so does a missing grade that is a NaN
    other than the object [np.nan] (a GRADE column missing throughout):
    the dictionary finds NaN by identity only. *)
Theorem missing_grade_resolution (r : Row)
    (Hg : In (GRADE r) Grades.missing_keys) :
  Grades.fill_grdpts r = Ok NaN /\
  Grades.apply_fill_grdpts [r] = Ok [set_grdpts r NaN] /\
  (forall filters dn bs bc input,
     match split_data filters dn bs bc input with
     | Ok (train, test) =>
         ~ In (set_grdpts r NaN) train /\ ~ In (set_grdpts r NaN) test
     | Raise _ => filters = []
     end) /\
  (forall r', ~ In (GRADE r') Grades.table_keys ->
     Grades.fill_grdpts r' = Raise "KeyError") /\
  (forall r', GRADE r' = FNaN -> Grades.fill_grdpts r' = Raise "KeyError").
Proof.
  assert (Grades.fill_grdpts r = Ok NaN) as Hfill
    by (rewrite fill_grdpts_lookup; now apply grade2pts_missing).
  split; [exact Hfill|]. split.
  { unfold Grades.apply_fill_grdpts. cbn [mapM]. now rewrite Hfill. }
  split.
  - intros filters dn bs bc input.
    destruct (split_data filters dn bs bc input) as [[train test]|e] eqn:E.
    + apply split_data_rows in E as [_ [Htrain Htest]].
      split; intro Hin.
      * apply Htrain, sorted_data_In in Hin as [_ Hnull]. discriminate.
      * apply Htest, test_before_In in Hin as [Hin _].
        apply sorted_data_In in Hin as [_ Hnull]. discriminate.
    + destruct filters as [|f fs]; [reflexivity|].
      rewrite split_data_returns in E by discriminate. discriminate.
  - split.
    + intros r' Hr'. rewrite fill_grdpts_lookup. now apply grade2pts_unlisted.
    + intros r' Hr'. rewrite fill_grdpts_lookup, Hr'. reflexivity.
Qed.

Lemma missing_grade_resolution_witness :
  In (GRADE Examples.not_reported) Grades.missing_keys /\
  Grades.fill_grdpts Examples.not_reported = Ok NaN /\
  Grades.apply_fill_grdpts [Examples.not_reported] =
    Ok [set_grdpts Examples.not_reported NaN] /\
  (forall filters dn bs bc input,
     match split_data filters dn bs bc input with
     | Ok (train, test) =>
         ~ In (set_grdpts Examples.not_reported NaN) train /\
         ~ In (set_grdpts Examples.not_reported NaN) test
     | Raise _ => filters = []
     end) /\
  (forall r', ~ In (GRADE r') Grades.table_keys ->
     Grades.fill_grdpts r' = Raise "KeyError") /\
  (forall r', GRADE r' = FNaN -> Grades.fill_grdpts r' = Raise "KeyError").
Proof.
  assert (In (GRADE Examples.not_reported) Grades.missing_keys) as H
    by (cbn; tauto).
  split; [exact H|].
  exact (missing_grade_resolution Examples.not_reported H).
Defined.

(** A grade code outside the table: resolution raises, and with it the
    whole preprocessing step. *)
Lemma unlisted_grade_raises :
  GRADE Examples.unlisted = Str "D+" /\
  ~ In (GRADE Examples.unlisted) Grades.table_keys /\
  Grades.fill_grdpts Examples.unlisted = Raise "KeyError" /\
  Grades.apply_fill_grdpts [Examples.unlisted; Examples.not_reported] =
    Raise "KeyError".
Proof.
  split; [reflexivity|]. split; [|split; reflexivity].
  cbn. intro H.
  repeat (destruct H as [H | H]; [discriminate|]).
  contradiction.
Qed.

(** A table whose GRADE column is missing throughout: the first row
    already raises.  Beside a row with a grade, the missing cell is the
    object [np.nan] and is resolved to missing points. *)
Example missing_grade_by_identity :
  Grades.apply_fill_grdpts [Examples.float_nan_grade] = Raise "KeyError" /\
  Grades.apply_fill_grdpts [Examples.graded; Examples.object_nan_grade] =
    Ok [set_grdpts Examples.graded (Num (367 # 100));
        set_grdpts Examples.object_nan_grade NaN].
Proof. split; reflexivity. Qed.

(** C4: the comparison of the grade with [np.nan] holds for every row,
    so [fill_grdpts] always answers with the table entry of the grade
    and never with the row's own quality points.  On the record with
    grade A- and quality points 3.7 the value is replaced by 3.67. *)
Theorem fill_grdpts_overwrites_present :
  (forall r, Grades.fill_grdpts r = Grades.grade2pts (GRADE r)) /\
  grdpts Examples.graded = Num (37 # 10) /\
  isnull (grdpts Examples.graded) = false /\
  Grades.fill_grdpts Examples.graded = Ok (Num (367 # 100)) /\
  Grades.apply_fill_grdpts [Examples.graded] =
    Ok [set_grdpts Examples.graded (Num (367 # 100))].
Proof.
  split; [exact fill_grdpts_lookup|]. repeat split.
Qed.

End SplitterClaims.

(** ** Sorting *)

Section SortFacts.

Import Frame.

Context {A : Type} (leb : A -> A -> bool).
Hypothesis leb_total : forall a b, leb a b = false -> leb b a = true.
Hypothesis leb_trans : forall a b c, leb a b = true -> leb b c = true -> leb a c = true.

Let R (a b : A) : Prop := leb a b = true.

Lemma insert_HdRel (a x : A) (l : list A) :
  R a x -> HdRel R a l -> HdRel R a (insert leb x l).
Proof.
  intros Hax Hl. destruct l as [|y l]; simpl.
  - now constructor.
  - destruct (leb x y); constructor; [exact Hax|].
    now inversion Hl.
Qed.

Lemma insert_Sorted (x : A) (l : list A) :
  Sorted R l -> Sorted R (insert leb x l).
Proof.
  induction l as [|y l IH]; simpl; intro Hs.
  - repeat constructor.
  - destruct (leb x y) eqn:E.
    + constructor; [exact Hs | now constructor].
    + inversion Hs as [|? ? Hs' Hhd]; subst.
      constructor; [now apply IH|].
      apply insert_HdRel; [now apply leb_total | exact Hhd].
Qed.

Lemma sort_Sorted (l : list A) : Sorted R (sort leb l).
Proof.
  induction l as [|x l IH]; simpl; [constructor | now apply insert_Sorted].
Qed.

Lemma sort_StronglySorted (l : list A) : StronglySorted R (sort leb l).
Proof.
  apply Sorted_StronglySorted; [|apply sort_Sorted].
  intros a b c. apply leb_trans.
Qed.


End SortFacts.

(** ** The result aggregator *)

Section AggregatorClaims.

Import Frame CompareMethods.





Lemma slice_to_firstn {B : Type} (n : Z) (l : list B) :
  0 <= n -> slice_to n l = firstn (Z.to_nat n) l.
Proof.
  intro H. unfold slice_to.
  destruct (Z.ltb_spec n 0) as [Hlt | _]; [lia | reflexivity].
Qed.

Lemma collect_app (topn : Z) (inputs : list (string * list (Z * Q * Q)))
    (results : list result_row) :
  collect topn inputs results =
  results ++ List.concat (map (keep topn) inputs).
Proof.
  revert results. induction inputs as [|input rest IH]; simpl; intro results.
  - now rewrite app_nil_r.
  - now rewrite IH, app_assoc.
Qed.


(** Rows with equal test error keep their input order. *)
Example sorted_is_stable :
  sorted [mkResult "SVD" 1 (1 # 10) (3 # 10);
          mkResult "SVD" 2 (1 # 10) (2 # 10);
          mkResult "SVD" 3 (1 # 10) (3 # 10);
          mkResult "SVD" 4 (1 # 10) (2 # 10)] =
  [mkResult "SVD" 2 (1 # 10) (2 # 10);
   mkResult "SVD" 4 (1 # 10) (2 # 10);
   mkResult "SVD" 1 (1 # 10) (3 # 10);
   mkResult "SVD" 3 (1 # 10) (3 # 10)].
Proof. reflexivity. Qed.


End AggregatorClaims.

(** ** The libFM encoding *)

Section EncoderClaims.

Import UserCourseGradeLibFM.

Lemma mapM_total {A B : Type} (f : A -> result B) (g : A -> B) (l : list A) :
  (forall a, f a = Ok (g a)) -> mapM f l = Ok (map g l).
Proof.
  intro H. induction l as [|a l IH]; simpl; [reflexivity|].
  now rewrite H, IH.
Qed.

Lemma fold_max_ge (l : list Z) (x : Z) : x <= fold_left Z.max l x.
Proof.
  revert x. induction l as [|y l IH]; simpl; intro x; [lia|].
  specialize (IH (Z.max x y)). lia.
Qed.

Lemma fold_max_ub (l : list Z) (x y : Z) : In y l -> y <= fold_left Z.max l x.
Proof.
  revert x. induction l as [|z l IH]; simpl; intros x H; [contradiction|].
  destruct H as [-> | H]; [|now apply IH].
  assert (Hge := fold_max_ge l (Z.max x y)). lia.
Qed.

(** A frame whose rows all encode is written as its lines, or as its
    column names when it has no row. *)
Lemma write_libfm_total (data : list Row) (timecol : string) (n : Z)
    (g : Row -> line) :
  (forall r, In r data -> extract_row timecol n r = Ok (g r)) ->
  write_libfm data timecol n = Ok (content_of (map g data)).
Proof.
  intro H. destruct data as [|r0 data]; [reflexivity|].
  unfold write_libfm.
  assert (mapM (extract_row timecol n) (r0 :: data) = Ok (map g (r0 :: data)))
    as ->; [|reflexivity].
  induction (r0 :: data) as [|x l IH]; [reflexivity|].
  cbn [mapM map]. rewrite (H x) by now left. cbn [bind].
  rewrite IH by (intros y Hy; apply H; now right). reflexivity.
Qed.

(** [max] is an upper bound of the sequence. *)
Lemma py_max_ub (l : list Z) (m : Z) :
  py_max l = Ok m -> forall x, In x l -> x <= m.
Proof.
  destruct l as [|a l]; simpl; [discriminate|].
  intro H. injection H as <-. intros x [<- | Hx].
  - apply fold_max_ge.
  - now apply fold_max_ub.
Qed.

(** C1: without time attributes, [run] writes for each record the
    student id and the course id plus the largest student id of both
    frames (not that id plus one); a frame without records gives the
    names of its columns.  On the sample split, where the
    largest student id is 1, student 1 and course 0 both get index 1 in
    the train file; in binary time mode term 0 gets index 2, the index
    of course 1 in the test file. *)
Theorem libfm_offset_collision :
  (forall train test,
     match py_max (map sid test ++ map sid train) with
     | Ok m =>
         let enc := fun r =>
           mkLine (grdpts r) [(sid r, 1); (cid r + m, 1)] in
         run "" train test =
           Ok (content_of (map enc train), content_of (map enc test))
     | Raise e => run "" train test = Raise e
     end) /\
  run "" Examples.fm_train Examples.fm_test =
    Ok (Lines [mkLine (Num (4 # 1)) [(1, 1); (1, 1)]],
        Lines [mkLine (Num (3 # 1)) [(0, 1); (2, 1)]]) /\
  run "bin" Examples.fm_train Examples.fm_test =
    Ok (Lines [mkLine (Num (4 # 1)) [(1, 1); (1, 1); (2, 1)]],
        Lines [mkLine (Num (3 # 1)) [(0, 1); (2, 1); (3, 1)]]) /\
  run "cat" Examples.fm_train Examples.fm_test =
    Ok (Lines [mkLine (Num (4 # 1)) [(1, 1); (1, 1); (3, 0)]],
        Lines [mkLine (Num (3 # 1)) [(0, 1); (2, 1); (3, 1)]]).
Proof.
  split; [|repeat split].
  intros train test. unfold run.
  destruct (py_max (map sid test ++ map sid train)) as [m|e]; [|reflexivity].
  cbn [bind String.eqb Ascii.eqb Bool.eqb]. cbv zeta.
  rewrite !(write_libfm_total _ _ _
              (fun r => mkLine (grdpts r) [(sid r, 1); (cid r, 1)]))
    by reflexivity.
  unfold add_cid. cbn [bind]. now rewrite !map_map.
Qed.

(** A split whose test frame has no record: the test file holds the
    names of the columns, not an empty text. *)
Example run_empty_test_frame :
  run "" Examples.fm_train [] =
    Ok (Lines [mkLine (Num (4 # 1)) [(1, 1); (1, 1)]], ColumnNames) /\
  run "cat" Examples.fm_train [] =
    Ok (Lines [mkLine (Num (4 # 1)) [(1, 1); (1, 1); (2, 0)]], ColumnNames).
Proof. split; reflexivity. Qed.

(** When every course id is at least 1 the student indices and the
    course indices written without time attributes do not meet. *)
Lemma libfm_blocks_apart (train test : list Row) (m : Z) (r r' : Row) :
  py_max (map sid test ++ map sid train) = Ok m ->
  In r (train ++ test) -> In r' (train ++ test) -> 1 <= cid r' ->
  sid r < cid r' + m.
Proof.
  intros Hm Hr Hr' Hc.
  assert (sid r <= m); [|lia].
  apply (py_max_ub _ _ Hm). apply in_app_iff.
  apply in_app_iff in Hr as [Hr | Hr]; [right | left]; now apply in_map.
Qed.

End EncoderClaims.

(** * Further properties *)

(** ** Cold-start backfill: what moves and what stays *)

Section BackfillMoves.

Import Frame DataSplitterBaseTask.

Lemma count_key_app (key : Row -> Z) (v : Z) (l1 l2 : list Row) :
  count_key key v (l1 ++ l2) = (count_key key v l1 + count_key key v l2)%nat.
Proof. unfold count_key. now rewrite filter_app, length_app. Qed.

Lemma count_key_perm (key : Row -> Z) (v : Z) (l1 l2 : list Row) :
  Permutation l1 l2 -> count_key key v l1 = count_key key v l2.
Proof.
  intro H. unfold count_key. apply Permutation_length.
  induction H as [|x l l' H IH|x y l|l l' l'' H1 IH1 H2 IH2]; simpl.
  - apply perm_nil.
  - destruct (key x =? v); [now apply perm_skip | exact IH].
  - destruct (key x =? v), (key y =? v);
      try apply perm_swap; apply Permutation_refl.
  - eapply perm_trans; eassumption.
Qed.

Lemma count_key_absent (key : Row -> Z) (v : Z) (l : list Row) :
  ~ In v (map key l) -> count_key key v l = 0%nat.
Proof.
  induction l as [|x l IH]; simpl; intro H; [reflexivity|].
  rewrite count_key_cons.
  destruct (Z.eqb_spec (key x) v) as [E | _]; [tauto|].
  apply IH. tauto.
Qed.

(** A filter that looks at the key only keeps a group whole or drops
    it whole. *)
Lemma count_key_filter_by_key (key : Row -> Z) (p : Z -> bool) (v : Z)
    (l : list Row) :
  count_key key v (filter (fun r => p (key r)) l) =
  if p v then count_key key v l else 0%nat.
Proof.
  induction l as [|x l IH]; simpl.
  - now destruct (p v).
  - destruct (p (key x)) eqn:Ep; rewrite ?count_key_cons, IH;
      destruct (Z.eqb_spec (key x) v) as [E | E];
      try (rewrite E in Ep; rewrite Ep); destruct (p v); lia.
Qed.

(** [head(n)] keeps of each group the first [n] rows, less those
    already passed. *)
Lemma head_from_count (key : Row -> Z) (n : nat) (v : Z) (seen l : list Row) :
  count_key key v (head_from key n seen l) =
  Nat.min (count_key key v l) (n - count_key key v seen).
Proof.
  revert seen. induction l as [|x l IH]; simpl; intro seen.
  - reflexivity.
  - assert (Hrec := IH (x :: seen)). rewrite count_key_cons in Hrec.
    destruct (Nat.ltb_spec (count_key key (key x) seen) n) as [Hlt | Hge];
      rewrite ?count_key_cons, Hrec, ?count_key_cons;
      destruct (Z.eqb_spec (key x) v) as [E | E];
      try rewrite E in *; lia.
Qed.

Lemma filter_all {B : Type} (f : B -> bool) (l : list B) :
  (forall x, In x l -> f x = true) -> filter f l = l.
Proof.
  induction l as [|x l IH]; simpl; intro H; [reflexivity|].
  rewrite (H x) by now left. f_equal. apply IH. intros y Hy. apply H. now right.
Qed.

Lemma filter_none {B : Type} (f : B -> bool) (l : list B) :
  (forall x, In x l -> f x = false) -> filter f l = [].
Proof.
  induction l as [|x l IH]; simpl; intro H; [reflexivity|].
  rewrite (H x) by now left. apply IH. intros y Hy. apply H. now right.
Qed.

Variables (train test : list Row) (key : Row -> Z) (firstn : nat).

(** With a positive bound the keys of the returned test frame are keys
    of the returned train frame. *)
Lemma backfill_test_keys_in_train (r : Row) :
  (0 < firstn)%nat ->
  In r (snd (backfill train test key firstn)) ->
  In (key r) (map key (fst (backfill train test key firstn))).
Proof.
  intros HF. rewrite backfill_unfold by exact HF. cbv zeta. simpl fst. simpl snd.
  set (diff := setdiff1d (map key test) (map key train)).
  intro Hr. rewrite map_app, in_app_iff.
  apply in_app_iff in Hr as [Hr | Hr].
  - apply filter_In in Hr as [Hr Hm]. left.
    destruct (in_dec Z.eq_dec (key r) (map key train)) as [Hin | Hout];
      [exact Hin|].
    assert (isin (key r) diff = true) as Hm'.
    { apply isin_In, setdiff1d_In. split; [now apply in_map | exact Hout]. }
    rewrite Hm' in Hm. discriminate.
  - right. apply groupby_tail_In in Hr.
    destruct (head_from_covers key firstn [] _ r HF Hr eq_refl) as [r' [H1 H2]].
    rewrite <- H2. now apply in_map.
Qed.

(** Without a cold key nothing moves. *)
Lemma backfill_no_cold_key :
  (forall r, In r test -> In (key r) (map key train)) ->
  backfill train test key firstn = (train, test).
Proof.
  intro H. destruct (Nat.eq_dec firstn 0) as [-> | Hn]; [reflexivity|].
  rewrite backfill_unfold by lia. cbv zeta.
  set (diff := setdiff1d (map key test) (map key train)).
  assert (Hm : forall r, In r test -> isin (key r) diff = false).
  { intros r Hr. destruct (isin (key r) diff) eqn:E; [|reflexivity].
    apply isin_In, setdiff1d_In in E as [_ E]. elim E. now apply H. }
  rewrite (filter_none (fun r => isin (key r) diff) test Hm).
  rewrite (filter_all (fun r => negb (isin (key r) diff)) test)
    by (intros r Hr; now rewrite (Hm r Hr)).
  cbn. now rewrite !app_nil_r.
Qed.

End BackfillMoves.

Section BackfillExtras.

Import Frame DataSplitterBaseTask.

(** X1: backfill only appends to the train frame and only takes from
    the test frame: the returned train frame is the given one followed
    by rows of the given test frame, and every returned test row is a
    given test row. *)
Theorem backfill_moves_test_to_train
    (train test : list Row) (key : Row -> Z) (firstn : nat) :
  (exists moved,
     fst (backfill train test key firstn) = train ++ moved /\
     (forall r, In r moved -> In r test)) /\
  (forall r, In r (snd (backfill train test key firstn)) -> In r test).
Proof.
  split; [|intro r; apply backfill_test_incl].
  destruct (Nat.eq_dec firstn 0) as [-> | Hn].
  - exists []. rewrite backfill_zero, app_nil_r. split; [reflexivity|].
    intros r [].
  - rewrite backfill_unfold by lia. cbv zeta. simpl fst.
    eexists. split; [reflexivity|].
    intros r Hr. apply head_from_In in Hr. now apply filter_In in Hr.
Qed.

(** X2: for a key value that does not occur in the given train frame,
    exactly min(firstn, group size) of its test rows are in the returned
    train frame and the other max(group size - firstn, 0) stay in the
    returned test frame. *)
Theorem backfill_cold_key_counts
    (train test : list Row) (key : Row -> Z) (firstn : nat) (v : Z)
    (Hcold : ~ In v (map key train)) :
  count_key key v (fst (backfill train test key firstn)) =
    Nat.min firstn (count_key key v test) /\
  count_key key v (snd (backfill train test key firstn)) =
    (count_key key v test - firstn)%nat.
Proof.
  assert (Htrain := count_key_absent key v train Hcold).
  assert (Hsum := count_key_perm key v _ _
                    (backfill_perm train test key firstn)).
  rewrite !count_key_app, Htrain in Hsum.
  assert (count_key key v (fst (backfill train test key firstn)) =
          Nat.min firstn (count_key key v test)) as Hfst; [|lia].
  destruct (Nat.eq_dec firstn 0) as [-> | Hn].
  - rewrite backfill_zero. simpl fst. now rewrite Htrain.
  - rewrite backfill_unfold by lia. cbv zeta. simpl fst.
    set (diff := setdiff1d (map key test) (map key train)).
    rewrite count_key_app, Htrain. unfold groupby_head.
    rewrite head_from_count.
    rewrite (count_key_filter_by_key key (fun k => isin k diff)).
    unfold count_key at 2. simpl.
    destruct (isin v diff) eqn:E; [lia|].
    destruct (in_dec Z.eq_dec v (map key test)) as [Hin | Hout].
    + assert (isin v diff = true) as E'
        by (apply isin_In, setdiff1d_In; now split).
      congruence.
    + rewrite (count_key_absent key v test Hout). lia.
Qed.

Lemma backfill_cold_key_counts_witness :
  ~ In 2 (map sid Examples.ex_train) /\
  count_key sid 2 (fst (backfill Examples.ex_train Examples.ex_test sid 1)) =
    Nat.min 1 (count_key sid 2 Examples.ex_test) /\
  count_key sid 2 (snd (backfill Examples.ex_train Examples.ex_test sid 1)) =
    (count_key sid 2 Examples.ex_test - 1)%nat.
Proof.
  assert (~ In 2 (map sid Examples.ex_train)) as H
    by (cbn; intros [H | []]; discriminate).
  split; [exact H|].
  exact (backfill_cold_key_counts Examples.ex_train Examples.ex_test sid 1 2 H).
Defined.

(** X3: a key value that occurs in the given train frame is left alone:
    both returned frames hold as many rows of it as the given ones, and
    each of its test rows is still in the test frame. *)
Theorem backfill_warm_key_untouched
    (train test : list Row) (key : Row -> Z) (firstn : nat) (v : Z)
    (Hwarm : In v (map key train)) :
  count_key key v (fst (backfill train test key firstn)) =
    count_key key v train /\
  count_key key v (snd (backfill train test key firstn)) =
    count_key key v test /\
  (forall r, In r test -> key r = v ->
             In r (snd (backfill train test key firstn))).
Proof.
  destruct (Nat.eq_dec firstn 0) as [-> | Hn].
  - rewrite backfill_zero. simpl. tauto.
  - assert (Hsum := count_key_perm key v _ _
                      (backfill_perm train test key firstn)).
    rewrite !count_key_app in Hsum.
    rewrite backfill_unfold in * by lia. cbv zeta in *.
    simpl fst in *. simpl snd in *.
    set (diff := setdiff1d (map key test) (map key train)) in *.
    assert (isin v diff = false) as Hv.
    { destruct (isin v diff) eqn:E; [|reflexivity].
      apply isin_In, setdiff1d_In in E as [_ E]. contradiction. }
    assert (count_key key v
              (groupby_head key firstn
                 (filter (fun r => isin (key r) diff) test)) = 0%nat) as Hhead.
    { unfold groupby_head. rewrite head_from_count.
      rewrite (count_key_filter_by_key key (fun k => isin k diff)), Hv. lia. }
    rewrite count_key_app in *. rewrite Hhead in *.
    split; [lia|]. split; [lia|].
    intros r Hr Hk. apply in_app_iff. left. apply filter_In.
    split; [exact Hr|]. now rewrite Hk, Hv.
Qed.

Lemma backfill_warm_key_untouched_witness :
  In 1 (map sid Examples.ex_train) /\
  count_key sid 1 (fst (backfill Examples.ex_train Examples.ex_test sid 1)) =
    count_key sid 1 Examples.ex_train /\
  count_key sid 1 (snd (backfill Examples.ex_train Examples.ex_test sid 1)) =
    count_key sid 1 Examples.ex_test /\
  (forall r, In r Examples.ex_test -> sid r = 1 ->
             In r (snd (backfill Examples.ex_train Examples.ex_test sid 1))).
Proof.
  assert (In 1 (map sid Examples.ex_train)) as H by (cbn; now left).
  split; [exact H|].
  exact (backfill_warm_key_untouched Examples.ex_train Examples.ex_test sid 1 1 H).
Defined.

(** X4: backfilling a second time with the same key and bound changes
    nothing; and when every key of the test frame already occurs in the
    train frame the first call returns the frames as given. *)
Theorem backfill_idempotent
    (train test : list Row) (key : Row -> Z) (firstn : nat) :
  backfill (fst (backfill train test key firstn))
           (snd (backfill train test key firstn)) key firstn =
  backfill train test key firstn /\
  ((forall r, In r test -> In (key r) (map key train)) ->
   backfill train test key firstn = (train, test)).
Proof.
  split; [|apply backfill_no_cold_key].
  destruct (Nat.eq_dec firstn 0) as [-> | Hn].
  - reflexivity.
  - rewrite backfill_no_cold_key.
    + now destruct (backfill train test key firstn).
    + intros r Hr. apply backfill_test_keys_in_train; [lia | exact Hr].
Qed.

End BackfillExtras.

(** ** Reading, deduplicating and sorting *)

Section ReadFacts.

Import Frame DataSplitterBaseTask.

Lemma same_sid_cid_iff (a b : Row) :
  same_sid_cid a b = true <-> sid_cid a = sid_cid b.
Proof.
  unfold same_sid_cid, sid_cid. rewrite andb_true_iff, !Z.eqb_eq.
  split; [intros [-> ->]; reflexivity | intro H; now injection H].
Qed.

Lemma existsb_same_false (x : Row) (l : list Row) :
  existsb (same_sid_cid x) l = false <-> ~ In (sid_cid x) (map sid_cid l).
Proof.
  rewrite <- not_true_iff_false, existsb_exists, in_map_iff. split.
  - intros H [y [Hy Hin]]. apply H. exists y. split; [exact Hin|].
    now apply same_sid_cid_iff.
  - intros H [y [Hin Hy]]. apply H. exists y. split; [|exact Hin].
    symmetry. now apply same_sid_cid_iff.
Qed.

Lemma NoDup_map_filter {B C : Type} (f : B -> C) (p : B -> bool) (l : list B) :
  NoDup (map f l) -> NoDup (map f (filter p l)).
Proof.
  induction l as [|x l IH]; simpl; intro H; [constructor|].
  inversion H as [|? ? Hx Hl]; subst.
  destruct (p x); simpl; [|now apply IH].
  constructor; [|now apply IH].
  intro Hin. apply Hx. apply in_map_iff in Hin as [y [Hy Hin]].
  apply filter_In in Hin as [Hin _]. rewrite <- Hy. now apply in_map.
Qed.

Lemma NoDup_map_inj {B C : Type} (f : B -> C) (l : list B) (a b : B) :
  NoDup (map f l) -> In a l -> In b l -> f a = f b -> a = b.
Proof.
  induction l as [|x l IH]; simpl; intros H Ha Hb E; [contradiction|].
  inversion H as [|? ? Hx Hl]; subst.
  destruct Ha as [-> | Ha], Hb as [-> | Hb].
  - reflexivity.
  - elim Hx. rewrite E. now apply in_map.
  - elim Hx. rewrite <- E. now apply in_map.
  - now apply IH.
Qed.

Lemma take_last_NoDup (l : list Row) :
  NoDup (map sid_cid (drop_duplicates_take_last l)).
Proof.
  induction l as [|x l IH]; simpl; [constructor|].
  destruct (existsb (same_sid_cid x) l) eqn:E; [exact IH|].
  simpl. constructor; [|exact IH].
  apply existsb_same_false in E. intro Hin. apply E.
  apply in_map_iff in Hin as [y [Hy Hin]].
  apply drop_duplicates_take_last_In in Hin. rewrite <- Hy. now apply in_map.
Qed.

(** A row kept by [take_last=True] is followed by no row of its pair. *)
Lemma take_last_is_last (l : list Row) (r : Row) :
  In r (drop_duplicates_take_last l) ->
  exists l1 l2, l = l1 ++ r :: l2 /\ ~ In (sid_cid r) (map sid_cid l2).
Proof.
  induction l as [|x l IH]; simpl; [contradiction|].
  destruct (existsb (same_sid_cid x) l) eqn:E.
  - intro H. destruct (IH H) as [l1 [l2 [-> Hl2]]].
    now exists (x :: l1), l2.
  - intros [<- | H].
    + exists [], l. split; [reflexivity | now apply existsb_same_false].
    + destruct (IH H) as [l1 [l2 [-> Hl2]]]. now exists (x :: l1), l2.
Qed.

(** The last row of a pair is the one that is kept. *)
Lemma take_last_keeps_last (l1 l2 : list Row) (r r' : Row) :
  ~ In (sid_cid r) (map sid_cid l2) ->
  In r' (drop_duplicates_take_last (l1 ++ r :: l2)) ->
  sid_cid r' = sid_cid r -> r' = r.
Proof.
  intros Hl2. induction l1 as [|x l1 IH]; simpl.
  - apply existsb_same_false in Hl2. rewrite Hl2.
    intros [<- | H] E; [reflexivity|].
    apply drop_duplicates_take_last_In in H.
    apply existsb_same_false in Hl2. elim Hl2. rewrite <- E. now apply in_map.
  - destruct (existsb (same_sid_cid x) (l1 ++ r :: l2)) eqn:Ex; [exact IH|].
    intros [<- | H] E; [|now apply IH].
    apply existsb_same_false in Ex. elim Ex. rewrite E.
    apply in_map, in_app_iff. right. now left.
Qed.

(** X5: [read_data] returns rows of the table that have quality
    points, at most one for each (sid, cid) pair, and each returned row
    is the last row of its pair in the table. *)
Theorem read_data_keeps_last_graded (data : list Row) :
  NoDup (map sid_cid (read_data data)) /\
  (forall r, In r (read_data data) ->
     isnull (grdpts r) = false /\
     exists l1 l2, data = l1 ++ r :: l2 /\
                   ~ In (sid_cid r) (map sid_cid l2)).
Proof.
  unfold read_data. split.
  - apply NoDup_map_filter, take_last_NoDup.
  - intros r Hr. apply filter_In in Hr as [Hr Hn].
    apply negb_true_iff in Hn. split; [exact Hn|].
    now apply take_last_is_last.
Qed.

(** X6: when the last row of a (sid, cid) pair has no quality points,
    [read_data] returns no row of that pair, whatever the earlier rows
    of the pair hold: duplicates are dropped before missing points. *)
Theorem read_data_last_missing_drops_pair (l1 l2 : list Row) (r : Row)
    (Hlast : ~ In (sid_cid r) (map sid_cid l2))
    (Hnull : isnull (grdpts r) = true) :
  ~ In (sid_cid r) (map sid_cid (read_data (l1 ++ r :: l2))).
Proof.
  intro Hin. apply in_map_iff in Hin as [r' [E Hr']].
  unfold read_data in Hr'. apply filter_In in Hr' as [Hr' Hn].
  apply (take_last_keeps_last l1 l2 r r' Hlast) in Hr'; [|exact E].
  subst r'. rewrite Hnull in Hn. discriminate.
Qed.

Lemma read_data_last_missing_drops_pair_witness :
  ~ In (sid_cid Examples.not_reported) (map sid_cid []) /\
  isnull (grdpts Examples.not_reported) = true /\
  ~ In (sid_cid Examples.not_reported)
      (map sid_cid (read_data ([Examples.graded] ++ Examples.not_reported :: []))).
Proof.
  assert (~ In (sid_cid Examples.not_reported) (map sid_cid [])) as H1
    by (intros []).
  split; [exact H1|]. split; [reflexivity|].
  exact (read_data_last_missing_drops_pair [Examples.graded] []
           Examples.not_reported H1 eq_refl).
Defined.

End ReadFacts.

Section SortDedupFacts.

Import Frame DataSplitterBaseTask.

Lemma termnum_sid_leb_total (a b : Row) :
  termnum_sid_leb a b = false -> termnum_sid_leb b a = true.
Proof.
  unfold termnum_sid_leb.
  destruct (termnum a) as [x|], (termnum b) as [y|]; try discriminate;
    try reflexivity.
  - destruct (Z.ltb_spec x y), (Z.ltb_spec y x); try discriminate;
      try reflexivity; try lia.
  - rewrite Z.leb_gt. intro. apply Z.leb_le. lia.
Qed.

Lemma termnum_sid_leb_trans (a b c : Row) :
  termnum_sid_leb a b = true -> termnum_sid_leb b c = true ->
  termnum_sid_leb a c = true.
Proof.
  unfold termnum_sid_leb.
  destruct (termnum a) as [x|], (termnum b) as [y|], (termnum c) as [z|];
    try discriminate; try reflexivity.
  - destruct (Z.ltb_spec x y), (Z.ltb_spec y x), (Z.ltb_spec y z),
      (Z.ltb_spec z y), (Z.ltb_spec x z), (Z.ltb_spec z x);
      try discriminate; try reflexivity; try lia;
      rewrite !Z.leb_le; lia.
  - rewrite !Z.leb_le. lia.
Qed.

(** X7: the sorted data are the rows of [read_data], each as often as
    there, in ascending order of term number and, within a term, of
    student id; rows without term number come last. *)
Theorem sorted_data_is_sorted (input : list Row) :
  Permutation (sorted_data input) (read_data input) /\
  StronglySorted (fun a b => termnum_sid_leb a b = true) (sorted_data input) /\
  (forall a b, termnum_sid_leb a b = true ->
     match termnum a, termnum b with
     | Some x, Some y => x < y \/ (x = y /\ sid a <= sid b)
     | Some _, None => True
     | None, Some _ => False
     | None, None => sid a <= sid b
     end).
Proof.
  split; [apply sort_perm|]. split.
  - apply sort_StronglySorted;
      [exact termnum_sid_leb_total | exact termnum_sid_leb_trans].
  - intros a b. unfold termnum_sid_leb.
    destruct (termnum a) as [x|], (termnum b) as [y|]; try discriminate;
      try (intros _; exact I); try (apply Z.leb_le).
    destruct (Z.ltb_spec x y); [intros _; now left|].
    destruct (Z.ltb_spec y x); [discriminate|].
    rewrite Z.leb_le. intro. right. lia.
Qed.

Lemma float_eqb_refl (x : float) : float_eqb x x = true.
Proof. destruct x as [q|]; simpl; [apply Qeq_bool_refl | reflexivity]. Qed.

Lemma optZ_eqb_refl (x : option Z) : optZ_eqb x x = true.
Proof. destruct x; simpl; [apply Z.eqb_refl | reflexivity]. Qed.

Lemma row_eqb_refl (r : Row) : row_eqb r r = true.
Proof.
  unfold row_eqb.
  rewrite !Z.eqb_refl, !optZ_eqb_refl, float_eqb_refl.
  replace (cell_eqb (GRADE r) (GRADE r)) with true; [reflexivity|].
  destruct (GRADE r); simpl; [now rewrite String.eqb_refl | reflexivity..].
Qed.

Lemma existsb_false_forall {B : Type} (f : B -> bool) (l : list B) :
  existsb f l = false <-> forall x, In x l -> f x = false.
Proof.
  induction l as [|y l IH]; simpl.
  - split; [intros _ x [] | reflexivity].
  - rewrite orb_false_iff, IH. split.
    + intros [H1 H2] x [<- | Hx]; [exact H1 | now apply H2].
    + intro H. split; [apply H; now left | intros x Hx; apply H; now right].
Qed.

Lemma drop_duplicates_from_distinct (seen l : list Row) :
  (forall r s, In r (drop_duplicates_from seen l) -> In s seen ->
               row_eqb r s = false) /\
  ForallOrdPairs (fun s r => row_eqb r s = false) (drop_duplicates_from seen l).
Proof.
  revert seen. induction l as [|x l IH]; simpl; intro seen.
  - split; [intros r s [] | constructor].
  - destruct (existsb (row_eqb x) seen) eqn:E; [apply IH|].
    destruct (IH (x :: seen)) as [H1 H2]. split.
    + intros r s [<- | Hr] Hs.
      * now apply (proj1 (existsb_false_forall _ _) E).
      * apply H1; [exact Hr | now right].
    + constructor; [|exact H2].
      apply Forall_forall. intros r Hr. apply H1; [exact Hr | now left].
Qed.

Lemma drop_duplicates_from_covers (seen l : list Row) (r : Row) :
  In r l ->
  exists s, In s (seen ++ drop_duplicates_from seen l) /\ row_eqb r s = true.
Proof.
  revert seen. induction l as [|x l IH]; simpl; intros seen Hr; [contradiction|].
  destruct (existsb (row_eqb x) seen) eqn:E.
  - destruct Hr as [<- | Hr]; [|now apply IH].
    apply existsb_exists in E as [s [Hs Heq]].
    exists s. split; [apply in_app_iff; now left | exact Heq].
  - destruct Hr as [<- | Hr].
    + exists x. split; [|apply row_eqb_refl].
      apply in_app_iff. right. now left.
    + destruct (IH (x :: seen) Hr) as [s [Hs Heq]].
      exists s. split; [|exact Heq].
      apply in_app_iff in Hs as [[<- | Hs] | Hs]; apply in_app_iff.
      * right. now left.
      * now left.
      * right. now right.
Qed.

(** X8: [drop_duplicates] returns rows of the frame of which no later
    one equals an earlier one on all columns, and every row of the
    frame equals one of the returned rows. *)
Theorem drop_duplicates_distinct_cover (l : list Row) :
  ForallOrdPairs (fun s r => row_eqb r s = false) (drop_duplicates l) /\
  (forall r, In r (drop_duplicates l) -> In r l) /\
  (forall r, In r l ->
     exists s, In s (drop_duplicates l) /\ row_eqb r s = true).
Proof.
  split; [apply drop_duplicates_from_distinct|].
  split; [intro r; apply drop_duplicates_In|].
  intros r Hr. exact (drop_duplicates_from_covers [] l r Hr).
Qed.

End SortDedupFacts.

(** ** The splitter: what the frames hold *)

Section SplitterExtras.

Import Frame DataSplitterBaseTask.

Lemma NoDup_map_drop_duplicates_from {C : Type} (f : Row -> C)
    (seen l : list Row) :
  NoDup (map f l) -> NoDup (map f (drop_duplicates_from seen l)).
Proof.
  revert seen. induction l as [|x l IH]; simpl; intros seen H; [constructor|].
  inversion H as [|? ? Hx Hl]; subst.
  destruct (existsb (row_eqb x) seen); [now apply IH|].
  simpl. constructor; [|now apply IH].
  intro Hin. apply Hx. apply in_map_iff in Hin as [y [Hy Hin]].
  apply drop_duplicates_from_In in Hin. rewrite <- Hy. now apply in_map.
Qed.

Lemma sorted_data_NoDup (input : list Row) :
  NoDup (map sid_cid (sorted_data input)).
Proof.
  apply (Permutation_NoDup (l := map sid_cid (read_data input))).
  - apply Permutation_map, Permutation_sym, sort_perm.
  - unfold DataSplitterBaseTask.read_data.
    apply NoDup_map_filter, take_last_NoDup.
Qed.

(** X9: [split_data] takes every row of both frames from the given
    table, and only rows with quality points. *)
Theorem split_data_rows_from_input
    (filters : list TrainTestFilter.t) (dn : bool) (bs bc : nat)
    (input train test : list Row)
    (Hsplit : split_data filters dn bs bc input = Ok (train, test)) :
  forall r, In r (train ++ test) ->
    In r input /\ isnull (grdpts r) = false.
Proof.
  apply split_data_rows in Hsplit as [_ [Htrain Htest]].
  intros r Hr. apply sorted_data_In.
  apply in_app_iff in Hr as [Hr | Hr]; [now apply Htrain|].
  now apply Htest, test_before_In in Hr.
Qed.

Lemma split_data_rows_from_input_witness :
  split_data [TrainTestFilter.mk 0 14 0 0] false 1 0 Examples.ex_input =
    Ok ([Examples.enrol 1 10 0 "A" (4 # 1); Examples.enrol 2 10 1 "B" (3 # 1)],
        []) /\
  forall r,
    In r ([Examples.enrol 1 10 0 "A" (4 # 1);
           Examples.enrol 2 10 1 "B" (3 # 1)] ++ []) ->
    In r Examples.ex_input /\ isnull (grdpts r) = false.
Proof.
  split; [reflexivity|].
  exact (split_data_rows_from_input [TrainTestFilter.mk 0 14 0 0] false 1 0
           Examples.ex_input _ _ eq_refl).
Defined.

(** X10: with the discard option set, the train frame holds no record
    with grade W, S or NC either, also after the backfills. *)
Theorem split_data_discard_cleans_train
    (filters : list TrainTestFilter.t) (bs bc : nat)
    (input train test : list Row)
    (Hsplit : split_data filters true bs bc input = Ok (train, test)) :
  forall r, In r train -> has_grade r.
Proof.
  destruct filters as [|f fs] eqn:Ef.
  - rewrite split_data_raises in Hsplit by reflexivity. discriminate.
  - rewrite <- Ef in *.
    rewrite split_data_returns in Hsplit by (rewrite Ef; discriminate).
    cbv zeta in Hsplit. injection Hsplit as Hsplit.
    intros r Hr.
    assert (In r (fst (train, test))) as Hr' by exact Hr.
    rewrite <- Hsplit in Hr'.
    assert (Hbefore : In r (train_before filters true input) \/
                      In r (test_before filters input)).
    { apply backfill_train_incl in Hr' as [Hr' | Hr'].
      - now apply backfill_train_incl in Hr'.
      - right. now apply backfill_test_incl in Hr'. }
    destruct Hbefore as [H | H].
    + unfold train_before in H. cbv zeta in H.
      now apply graded_only_In in H.
    + now apply test_before_In in H.
Qed.

Lemma split_data_discard_cleans_train_witness :
  split_data [TrainTestFilter.mk 0 14 0 1] true 0 0 Examples.ex_input =
    Ok ([Examples.enrol 1 10 0 "A" (4 # 1); Examples.enrol 2 10 1 "B" (3 # 1)],
        []) /\
  forall r,
    In r [Examples.enrol 1 10 0 "A" (4 # 1); Examples.enrol 2 10 1 "B" (3 # 1)] ->
    has_grade r.
Proof.
  split; [reflexivity|].
  exact (split_data_discard_cleans_train [TrainTestFilter.mk 0 14 0 1] 0 0
           Examples.ex_input _ _ eq_refl).
Defined.

(** X11: with a single filter no (sid, cid) pair occurs twice over the
    two returned frames: no record is repeated and train and test share
    no record. *)
Theorem split_data_single_filter_disjoint
    (f : TrainTestFilter.t) (dn : bool) (bs bc : nat)
    (input train test : list Row)
    (Hsplit : split_data [f] dn bs bc input = Ok (train, test)) :
  NoDup (map sid_cid (train ++ test)).
Proof.
  rewrite split_data_returns in Hsplit by discriminate.
  cbv zeta in Hsplit. injection Hsplit as Hsplit.
  set (b1 := backfill (train_before [f] dn input) (test_before [f] input)
               sid bs) in *.
  assert (Hdata := sorted_data_NoDup input).
  assert (Hbefore :
            NoDup (map sid_cid
                     (train_before [f] dn input ++ test_before [f] input))).
  { rewrite map_app. apply NoDup_app.
    - unfold train_before. cbv zeta. cbn [map List.concat].
      rewrite app_nil_r.
      assert (NoDup (map sid_cid
                (drop_duplicates
                   (TrainTestFilter.train f (sorted_data input))))) as H
        by (apply NoDup_map_drop_duplicates_from, NoDup_map_filter, Hdata).
      destruct dn; [now apply NoDup_map_filter | exact H].
    - unfold test_before. cbn [map List.concat]. rewrite app_nil_r.
      apply NoDup_map_filter, NoDup_map_drop_duplicates_from,
        NoDup_map_filter, Hdata.
    - intros k Hk1 Hk2.
      apply in_map_iff in Hk1 as [r1 [E1 H1]].
      apply in_map_iff in Hk2 as [r2 [E2 H2]].
      assert (In r1 (TrainTestFilter.train f (sorted_data input))) as H1'.
      { unfold train_before in H1. cbv zeta in H1.
        cbn [map List.concat] in H1. rewrite app_nil_r in H1.
        apply drop_duplicates_In.
        destruct dn; [now apply graded_only_In in H1 | exact H1]. }
      assert (In r2 (TrainTestFilter.test f (sorted_data input))) as H2'.
      { unfold test_before in H2. cbn [map List.concat] in H2.
        rewrite app_nil_r in H2. apply graded_only_In in H2 as [H2 _].
        now apply drop_duplicates_In. }
      apply filter_In in H1' as [Hin1 Hm1]. apply filter_In in H2' as [Hin2 Hm2].
      assert (r1 = r2) as ->
        by (apply (NoDup_map_inj sid_cid (sorted_data input));
            [exact Hdata | exact Hin1 | exact Hin2 | congruence]).
      rewrite Hm1 in Hm2. discriminate. }
  assert (H1 : NoDup (map sid_cid (fst b1 ++ snd b1))).
  { apply (Permutation_NoDup (l := map sid_cid
             (train_before [f] dn input ++ test_before [f] input)));
      [|exact Hbefore].
    apply Permutation_map, Permutation_sym, backfill_perm. }
  apply (Permutation_NoDup (l := map sid_cid (fst b1 ++ snd b1))); [|exact H1].
  apply Permutation_map, Permutation_sym.
  replace train with (fst (backfill (fst b1) (snd b1) cid bc))
    by now rewrite Hsplit.
  replace test with (snd (backfill (fst b1) (snd b1) cid bc))
    by now rewrite Hsplit.
  apply backfill_perm.
Qed.

Lemma split_data_single_filter_disjoint_witness :
  split_data [TrainTestFilter.mk 0 14 0 0] false 1 0 Examples.ex_input =
    Ok ([Examples.enrol 1 10 0 "A" (4 # 1); Examples.enrol 2 10 1 "B" (3 # 1)],
        []) /\
  NoDup (map sid_cid
           ([Examples.enrol 1 10 0 "A" (4 # 1);
             Examples.enrol 2 10 1 "B" (3 # 1)] ++ [])).
Proof.
  split; [reflexivity|].
  exact (split_data_single_filter_disjoint (TrainTestFilter.mk 0 14 0 0)
           false 1 0 Examples.ex_input _ _ eq_refl).
Defined.

(** With two filters a record can be on both sides: a record of term 1
    is a train record of the filter on term 1 and a test record of the
    filter on term 0. *)
Example split_data_two_filters_overlap :
  split_data [TrainTestFilter.mk 0 14 0 0; TrainTestFilter.mk 0 14 1 1]
    true 0 0 Examples.ex_input =
  Ok ([Examples.enrol 1 10 0 "A" (4 # 1); Examples.enrol 2 10 1 "B" (3 # 1)],
      [Examples.enrol 2 10 1 "B" (3 # 1); Examples.enrol 1 10 0 "A" (4 # 1)]).
Proof. reflexivity. Qed.

End SplitterExtras.

(** ** Filter specifications: the other forms and the errors *)

Section ParseExtras.

Import TrainTestFilter.

Lemma split_nonempty (c : ascii) (s : string) : split c s <> [].
Proof.
  destruct s as [|a s]; simpl; [discriminate|].
  destruct (Ascii.eqb a c); [discriminate|].
  destruct (split c s); discriminate.
Qed.

(** Joining the pieces with the separator gives the string back. *)
Lemma split_join (c : ascii) (s : string) :
  Naming.join (String c EmptyString) (split c s) = s.
Proof.
  induction s as [|a s IH]; [reflexivity|].
  assert (Hne := split_nonempty c s).
  cbn [split]. destruct (split c s) as [|p ps]; [congruence|].
  destruct (Ascii.eqb_spec a c) as [-> | _].
  - change (Naming.join (String c EmptyString) (EmptyString :: p :: ps))
      with (String c (Naming.join (String c EmptyString) (p :: ps))).
    now rewrite IH.
  - destruct ps as [|q qs].
    + simpl in *. now rewrite IH.
    + change (Naming.join (String c EmptyString) (String a p :: q :: qs))
        with (String a (Naming.join (String c EmptyString) (p :: q :: qs))).
      now rewrite IH.
Qed.

Lemma mapM_int_two (l : list string) (a b : Z) :
  mapM int l = Ok [a; b] ->
  exists A B, l = [A; B] /\ int A = Ok a /\ int B = Ok b.
Proof.
  destruct l as [|A [|B [|C l]]]; simpl.
  - discriminate.
  - destruct (int A); discriminate.
  - destruct (int A) as [a'|] eqn:EA; [|discriminate]. simpl.
    destruct (int B) as [b'|] eqn:EB; [|discriminate]. simpl.
    intro H. injection H as -> ->. now exists A, B.
  - destruct (int A); [|discriminate]. simpl.
    destruct (int B); [|discriminate]. simpl.
    destruct (int C); [|discriminate]. simpl.
    destruct (mapM int l); discriminate.
Qed.

Lemma digits_raise (s : string) (acc : Z) (e : string) :
  digits acc s = Raise e -> e = "ValueError".
Proof.
  revert acc. induction s as [|a s IH]; simpl; intro acc; [discriminate|].
  destruct (digit a); [apply IH|]. intro H. now injection H.
Qed.

Lemma int_raise (s : string) (e : string) :
  int s = Raise e -> e = "ValueError".
Proof.
  unfold int. destruct (PyStr.strip s) as [|a t]; [intro H; now injection H|].
  unfold int_literal. destruct (Ascii.eqb a "+").
  - destruct t; [intro H; now injection H | apply digits_raise].
  - apply digits_raise.
Qed.

Lemma mapM_int_raise (l : list string) (e : string) :
  mapM int l = Raise e -> e = "ValueError".
Proof.
  induction l as [|p l IH]; simpl; [discriminate|].
  destruct (int p) eqn:Ep; simpl.
  - destruct (mapM int l); simpl; [discriminate|].
    intro H. injection H as <-. now apply IH.
  - intro H. injection H as <-. now apply int_raise in Ep.
Qed.

Lemma unpack2_raise {B : Type} (l : list B) (e : string) :
  unpack2 l = Raise e -> e = "ValueError".
Proof.
  destruct l as [|a [|b [|c l]]]; simpl; intro H;
    try discriminate; now injection H.
Qed.

Lemma unpack2_ok {B : Type} (l : list B) (a b : B) :
  unpack2 l = Ok (a, b) -> l = [a; b].
Proof.
  destruct l as [|a' [|b' [|c l]]]; simpl; intro H; try discriminate.
  now injection H as -> ->.
Qed.

Lemma _split_range (A B : string) (a b : Z) :
  int A = Ok a -> int B = Ok b -> _split (A ++ "-" ++ B)%string = Ok (a, b).
Proof.
  intros HA HB. unfold _split.
  rewrite contains_app. simpl. rewrite orb_true_r.
  change (A ++ "-" ++ B)%string with (A ++ String "-" B)%string.
  rewrite split_first
    by (apply (int_no_char "-" A a); [now right | exact HA]).
  rewrite split_absent
    by (apply (int_no_char "-" B b); [now right | exact HB]).
  simpl. rewrite HA. simpl. rewrite HB. reflexivity.
Qed.

Lemma _split_single (A : string) (a : Z) :
  int A = Ok a -> _split A = Ok (a, term_max).
Proof.
  intro HA. unfold _split.
  rewrite (int_no_char "-" A a) by ((now right) || exact HA).
  now rewrite HA.
Qed.

Lemma string_app_assoc (s1 s2 s3 : string) :
  ((s1 ++ s2) ++ s3 = s1 ++ (s2 ++ s3))%string.
Proof. induction s1 as [|a s1 IH]; simpl; [reflexivity | now rewrite IH]. Qed.

Lemma init_colon (X Y : string) :
  contains ":" X = false -> contains ":" Y = false ->
  init (X ++ ":" ++ Y)%string =
  (c <- _split X ;; tm <- _split Y ;;
   Ok (mk (fst c) (snd c) (fst tm) (snd tm))).
Proof.
  intros HX HY. unfold init.
  rewrite contains_app. simpl. rewrite orb_true_r.
  change (X ++ ":" ++ Y)%string with (X ++ String ":" Y)%string.
  rewrite (split_first ":" X Y HX), (split_absent ":" Y HY). reflexivity.
Qed.

(** X12: the forms with a colon.  "A-B:C-D" gives the cohort range
    [A, B] and the term range [C, D]; a single value on either side
    stands for the range from that value to [term_max] = 14, so "A:C"
    gives the cohort range [A, 14] and the term range [C, 14]. *)
Theorem init_colon_forms (A B C D : string) (a b c d : Z)
    (HA : int A = Ok a) (HB : int B = Ok b)
    (HC : int C = Ok c) (HD : int D = Ok d) :
  init (A ++ "-" ++ B ++ ":" ++ C ++ "-" ++ D)%string = Ok (mk a b c d) /\
  init (A ++ ":" ++ C)%string = Ok (mk a 14 c 14) /\
  init (A ++ "-" ++ B ++ ":" ++ C)%string = Ok (mk a b c 14) /\
  init (A ++ ":" ++ C ++ "-" ++ D)%string = Ok (mk a 14 c d).
Proof.
  assert (Hc : forall S n, int S = Ok n -> contains ":" S = false)
    by (intros S n H; apply (int_no_char ":" S n); [now left | exact H]).
  assert (Hr : forall S T n m, int S = Ok n -> int T = Ok m ->
                 contains ":" (S ++ "-" ++ T)%string = false).
  { intros S T n m HS HT. rewrite !contains_app, (Hc S n HS), (Hc T m HT).
    reflexivity. }
  repeat split.
  - change (A ++ "-" ++ B ++ ":" ++ C ++ "-" ++ D)%string
      with (A ++ ("-" ++ B) ++ ":" ++ C ++ "-" ++ D)%string.
    rewrite <- string_app_assoc.
    rewrite init_colon by eauto.
    rewrite (_split_range A B a b HA HB), (_split_range C D c d HC HD).
    reflexivity.
  - rewrite init_colon by eauto.
    rewrite (_split_single A a HA), (_split_single C c HC). reflexivity.
  - change (A ++ "-" ++ B ++ ":" ++ C)%string
      with (A ++ ("-" ++ B) ++ ":" ++ C)%string.
    rewrite <- string_app_assoc.
    rewrite init_colon by eauto.
    rewrite (_split_range A B a b HA HB), (_split_single C c HC). reflexivity.
  - rewrite init_colon by eauto.
    rewrite (_split_single A a HA), (_split_range C D c d HC HD). reflexivity.
Qed.

Lemma init_colon_forms_witness :
  int "0" = Ok 0 /\ int "7" = Ok 7 /\ int "2" = Ok 2 /\ int "5" = Ok 5 /\
  init "0-7:2-5" = Ok (mk 0 7 2 5) /\
  init "0:2" = Ok (mk 0 14 2 14) /\
  init "0-7:2" = Ok (mk 0 7 2 14) /\
  init "0:2-5" = Ok (mk 0 14 2 5).
Proof.
  do 4 (split; [reflexivity|]).
  exact (init_colon_forms "0" "7" "2" "5" 0 7 2 5
           eq_refl eq_refl eq_refl eq_refl).
Defined.

End ParseExtras.

Section ParseErrors.

Import TrainTestFilter.

(** X13: a specification without colon either parses, and then it is
    "A-B" with two pieces that [int] accepts and the term range is
    [0, term_max], or raises ValueError; a single number such as "5"
    raises. *)
Theorem init_colon_free (s : string) (Hcolon : contains ":" s = false) :
  init s = Raise "ValueError" \/
  exists A B a b,
    s = (A ++ "-" ++ B)%string /\ int A = Ok a /\ int B = Ok b /\
    init s = Ok (mk a b 0 term_max).
Proof.
  unfold init. rewrite Hcolon.
  destruct (mapM int (split "-" s)) as [ns|e] eqn:E; cbn [bind].
  - destruct (unpack2 ns) as [[a b]|e] eqn:U; cbn [bind].
    + right. apply unpack2_ok in U. subst ns.
      apply mapM_int_two in E as [A [B [Hs [HA HB]]]].
      exists A, B, a, b. split; [|now repeat split].
      rewrite <- (split_join "-" s), Hs. reflexivity.
    + left. apply unpack2_raise in U. now subst.
  - left. apply mapM_int_raise in E. now subst.
Qed.

Lemma init_colon_free_witness :
  contains ":" "5" = false /\
  (init "5" = Raise "ValueError" \/
   exists A B a b,
     "5" = (A ++ "-" ++ B)%string /\ int A = Ok a /\ int B = Ok b /\
     init "5" = Ok (mk a b 0 term_max)).
Proof.
  split; [reflexivity|].
  exact (init_colon_free "5" eq_refl).
Defined.

Lemma digit_range (a : ascii) (d : Z) : digit a = Some d -> 0 <= d <= 9.
Proof.
  unfold digit.
  destruct (Z.leb_spec 48 (Z.of_nat (nat_of_ascii a))) as [H1 | H1];
    destruct (Z.leb_spec (Z.of_nat (nat_of_ascii a)) 57) as [H2 | H2]; simpl;
    try discriminate.
  intro E. injection E as <-. lia.
Qed.

Lemma digits_nonneg (s : string) (acc n : Z) :
  0 <= acc -> digits acc s = Ok n -> 0 <= n.
Proof.
  revert acc. induction s as [|a s IH]; simpl; intros acc Hacc H.
  - injection H as <-. exact Hacc.
  - destruct (digit a) as [d|] eqn:Ed; [|discriminate].
    apply digit_range in Ed. apply (IH (10 * acc + d)); [lia | exact H].
Qed.

Lemma int_nonneg (s : string) (n : Z) : int s = Ok n -> 0 <= n.
Proof.
  unfold int. destruct (PyStr.strip s) as [|a t]; [discriminate|].
  unfold int_literal. destruct (Ascii.eqb a "+").
  - destruct t; [discriminate|]. apply digits_nonneg. lia.
  - apply digits_nonneg. lia.
Qed.

Lemma mapM_int_nonneg (l : list string) (ns : list Z) :
  mapM int l = Ok ns -> Forall (fun n => 0 <= n) ns.
Proof.
  revert ns. induction l as [|p l IH]; simpl; intros ns H.
  - injection H as <-. constructor.
  - destruct (int p) as [n|] eqn:Ep; [|discriminate]. simpl in H.
    destruct (mapM int l) as [ms|]; [|discriminate]. simpl in H.
    injection H as <-. constructor; [now apply int_nonneg in Ep | now apply IH].
Qed.

Lemma _split_nonneg (s : string) (a b : Z) :
  _split s = Ok (a, b) -> 0 <= a /\ 0 <= b.
Proof.
  unfold _split. destruct (contains "-" s).
  - destruct (mapM int (split "-" s)) as [ns|] eqn:E; [|discriminate].
    cbn [bind]. intro U. apply unpack2_ok in U. subst ns.
    apply mapM_int_nonneg in E.
    inversion E as [|? ? Ha E']; subst. inversion E' as [|? ? Hb _]; subst.
    now split.
  - destruct (int s) as [n|] eqn:E; [|discriminate]. cbn [bind].
    intro H. injection H as <- <-. apply int_nonneg in E.
    unfold term_max. lia.
Qed.

(** X14: no filter specification gives a negative bound: the minus
    sign is a separator, so the four bounds of every filter that
    [__init__] builds are at least 0. *)
Theorem init_bounds_nonneg (s : string) (f : t) (Hok : init s = Ok f) :
  0 <= cohort_start f /\ 0 <= cohort_end f /\
  0 <= term_start f /\ 0 <= term_end f.
Proof.
  unfold init in Hok. destruct (contains ":" s).
  - destruct (unpack2 (split ":" s)) as [[X Y]|]; [|discriminate].
    cbn [bind fst snd] in Hok.
    destruct (_split X) as [[a b]|] eqn:EX; [|discriminate].
    cbn [bind fst snd] in Hok.
    destruct (_split Y) as [[c d]|] eqn:EY; [|discriminate].
    cbn [bind fst snd] in Hok. injection Hok as <-.
    apply _split_nonneg in EX, EY. simpl. tauto.
  - destruct (mapM int (split "-" s)) as [ns|] eqn:E; [|discriminate].
    cbn [bind] in Hok.
    destruct (unpack2 ns) as [[a b]|] eqn:U; [|discriminate].
    cbn [bind fst snd] in Hok. injection Hok as <-.
    apply unpack2_ok in U. subst ns. apply mapM_int_nonneg in E.
    inversion E as [|? ? Ha E']; subst. inversion E' as [|? ? Hb _]; subst.
    simpl. unfold term_max. lia.
Qed.

Lemma init_bounds_nonneg_witness :
  init "3-7:2" = Ok (mk 3 7 2 14) /\
  0 <= cohort_start (mk 3 7 2 14) /\ 0 <= cohort_end (mk 3 7 2 14) /\
  0 <= term_start (mk 3 7 2 14) /\ 0 <= term_end (mk 3 7 2 14).
Proof.
  split; [reflexivity|].
  exact (init_bounds_nonneg "3-7:2" (mk 3 7 2 14) eq_refl).
Defined.

(** X15: selecting twice changes nothing and the two sides exclude each
    other: [train] of [train] is [train], [test] of [test] is [test],
    and [train] of [test] and [test] of [train] are empty. *)
Theorem train_test_compose (f : t) (data : list Row) :
  train f (train f data) = train f data /\
  test f (test f data) = test f data /\
  train f (test f data) = [] /\
  test f (train f data) = [].
Proof.
  unfold train, test. repeat split.
  - apply filter_all. intros r Hr. now apply filter_In in Hr.
  - apply filter_all. intros r Hr. now apply filter_In in Hr.
  - apply filter_none. intros r Hr. apply filter_In in Hr as [_ Hr].
    now apply negb_true_iff in Hr.
  - apply filter_none. intros r Hr. apply filter_In in Hr as [_ Hr].
    now rewrite Hr.
Qed.

End ParseErrors.

(** ** The canonical name of a filter *)

Section NamingFacts.

Import TrainTestFilter Naming.

Lemma uint_no_char (c : ascii) (d : Decimal.uint) :
  digit c = None -> contains c (NilEmpty.string_of_uint d) = false.
Proof.
  intro Hc. induction d as [|d IH|d IH|d IH|d IH|d IH|d IH|d IH|d IH|d IH|d IH];
    cbn [contains NilEmpty.string_of_uint]; [reflexivity|..];
    rewrite IH, orb_false_r;
    match goal with
    | |- Ascii.eqb ?a c = false =>
        destruct (Ascii.eqb_spec a c) as [E | _]; [|reflexivity];
        rewrite <- E in Hc; discriminate
    end.
Qed.

Lemma fmt_int_no_char (c : ascii) (z : Z) :
  digit c = None -> c <> "-"%char -> contains c (fmt_int z) = false.
Proof.
  intros Hc Hm. unfold fmt_int, NilZero.string_of_int, NilZero.string_of_uint.
  assert (Hz : contains c "0" = false).
  { cbn [contains]. rewrite orb_false_r.
    destruct (Ascii.eqb_spec "0" c) as [E | _]; [|reflexivity].
    rewrite <- E in Hc. discriminate. }
  destruct (Z.to_int z) as [d | d].
  - destruct d; try exact Hz; now apply uint_no_char.
  - cbn [contains]. destruct (Ascii.eqb_spec "-" c) as [E | _]; [congruence|].
    destruct d; try exact Hz; now apply uint_no_char.
Qed.

Lemma to_int_proper (z : Z) :
  Z.to_int z <> Decimal.Pos Decimal.Nil /\ Z.to_int z <> Decimal.Neg Decimal.Nil.
Proof.
  destruct z as [|p|p]; simpl; split; try discriminate;
    intro H; injection H as H; now apply Unsigned.to_uint_nonnil in H.
Qed.

Lemma fmt_int_inj (z1 z2 : Z) : fmt_int z1 = fmt_int z2 -> z1 = z2.
Proof.
  unfold fmt_int. intro H.
  assert (Some (Z.to_int z1) = Some (Z.to_int z2)) as E.
  { destruct (to_int_proper z1) as [H1 H2], (to_int_proper z2) as [H3 H4].
    rewrite <- (NilZero.isi _ H1 H2), <- (NilZero.isi _ H3 H4). now rewrite H. }
  injection E as E.
  rewrite <- (DecimalZ.of_to z1), <- (DecimalZ.of_to z2). now rewrite E.
Qed.

(** Two strings cut at the first occurrence of a separator agree piece
    by piece. *)
Lemma app_sep_inj (c : ascii) (s1 s2 t1 t2 : string) :
  contains c s1 = false -> contains c s2 = false ->
  (s1 ++ String c t1 = s2 ++ String c t2)%string ->
  s1 = s2 /\ t1 = t2.
Proof.
  revert s2. induction s1 as [|a s1 IH]; intros [|b s2]; simpl; intros H1 H2 E.
  - injection E as ->. now split.
  - injection E as <- _. rewrite Ascii.eqb_refl in H2. discriminate.
  - injection E as -> _. rewrite Ascii.eqb_refl in H1. discriminate.
  - injection E as -> E. apply orb_false_iff in H1 as [_ H1].
    apply orb_false_iff in H2 as [_ H2].
    destruct (IH s2 H1 H2 E) as [-> ->]. now split.
Qed.

(** X16: the canonical name ['%d_%dT%d_%d'] determines the filter: two
    filters with the same name have the same four bounds. *)
Theorem __str___injective (f g : t) (Hname : __str__ f = __str__ g) : f = g.
Proof.
  destruct f as [a b c d], g as [a' b' c' d']. unfold __str__ in Hname.
  cbn [cohort_start cohort_end term_start term_end] in Hname.
  assert (Hu : forall z, contains "_" (fmt_int z) = false)
    by (intro z; apply fmt_int_no_char; [reflexivity | discriminate]).
  assert (HT : forall z, contains "T" (fmt_int z) = false)
    by (intro z; apply fmt_int_no_char; [reflexivity | discriminate]).
  apply (app_sep_inj "_" _ _ _ _ (Hu a) (Hu a')) in Hname as [Ha Hname].
  apply (app_sep_inj "T" _ _ _ _ (HT b) (HT b')) in Hname as [Hb Hname].
  apply (app_sep_inj "_" _ _ _ _ (Hu c) (Hu c')) in Hname as [Hc Hd].
  apply fmt_int_inj in Ha, Hb, Hc, Hd. now subst.
Qed.

Lemma __str___injective_witness :
  __str__ (mk 0 4 0 14) = "0_4T0_14" /\
  __str__ (mk 0 4 0 14) = __str__ (mk 0 4 0 14) /\
  mk 0 4 0 14 = mk 0 4 0 14.
Proof.
  split; [reflexivity|]. split; [reflexivity|].
  exact (__str___injective (mk 0 4 0 14) (mk 0 4 0 14) eq_refl).
Defined.

End NamingFacts.

(** ** The libFM encoding: time modes and errors *)

Section EncoderExtras.

Import UserCourseGradeLibFM.

Lemma mapM_total_in {A B : Type} (f : A -> result B) (g : A -> B) (l : list A) :
  (forall a, In a l -> f a = Ok (g a)) -> mapM f l = Ok (map g l).
Proof.
  induction l as [|a l IH]; simpl; intro H; [reflexivity|].
  rewrite (H a) by now left. simpl.
  rewrite IH by (intros b Hb; apply H; now right). reflexivity.
Qed.

Lemma mapM_raises {A B : Type} (f : A -> result B) (l : list A) (a : A) (e : string) :
  In a l -> f a = Raise e ->
  (forall x e', f x = Raise e' -> e' = e) ->
  mapM f l = Raise e.
Proof.
  intros Hin Ha Hall. induction l as [|x l IH]; simpl; [contradiction|].
  destruct (f x) as [b|e'] eqn:Ex; simpl.
  - destruct Hin as [-> | Hin]; [congruence|]. now rewrite (IH Hin).
  - now rewrite (Hall x e' Ex).
Qed.

Lemma mapM_ok_all {A B : Type} (f : A -> result B) (l : list A) (bs : list B) :
  mapM f l = Ok bs -> forall a, In a l -> exists b, f a = Ok b.
Proof.
  revert bs. induction l as [|x l IH]; simpl; intros bs H a Ha; [contradiction|].
  destruct (f x) as [b|] eqn:Ex; [|discriminate]. simpl in H.
  destruct (mapM f l) as [bs'|]; [|discriminate].
  destruct Ha as [<- | Ha]; [now exists b | now apply (IH bs')].
Qed.

Lemma mapM_raise_uniform {A B : Type} (f : A -> result B) (l : list A)
    (e e' : string) :
  (forall x e0, f x = Raise e0 -> e0 = e) -> mapM f l = Raise e' -> e' = e.
Proof.
  intro Hall. induction l as [|x l IH]; simpl; [discriminate|].
  destruct (f x) as [b|e0] eqn:Ex; simpl.
  - destruct (mapM f l); simpl; [discriminate|].
    intro H. injection H as <-. now apply IH.
  - intro H. injection H as <-. now apply (Hall x).
Qed.

Lemma py_max_some (l : list Z) : l <> [] -> exists m, py_max l = Ok m.
Proof. destruct l as [|x l]; [congruence | intros _; now eexists]. Qed.

Lemma py_max_none (l : list Z) (e : string) : py_max l = Raise e -> l = [].
Proof. destruct l; [reflexivity | discriminate]. Qed.

Lemma extract_row_raise (n : Z) (r : Row) (e : string) :
  extract_row "termnum" n r = Raise e -> e = "ValueError".
Proof.
  unfold extract_row, time_column, fmt_d. simpl.
  destruct (negb (n =? 0)), (termnum r); simpl; intro H;
    try discriminate; now injection H.
Qed.

Lemma extract_row_missing (n : Z) (r : Row) :
  termnum r = None -> extract_row "termnum" n r = Raise "ValueError".
Proof.
  intro H. unfold extract_row, time_column, fmt_d. simpl. rewrite H.
  now destruct (negb (n =? 0)).
Qed.

End EncoderExtras.

Section EncoderModes.

Import UserCourseGradeLibFM.

Variables (train test : list Row).

Lemma add_cid_sid (n : Z) (l : list Row) : map sid (add_cid n l) = map sid l.
Proof. unfold add_cid. rewrite map_map. reflexivity. Qed.

Lemma add_cid_cid (n : Z) (l : list Row) :
  map cid (add_cid n l) = map (fun r => cid r + n) l.
Proof. unfold add_cid. rewrite map_map. reflexivity. Qed.

Lemma write_libfm_ok_all (data : list Row) (n : Z) (c : content) :
  write_libfm data "termnum" n = Ok c ->
  forall a, In a data -> exists y, extract_row "termnum" n a = Ok y.
Proof.
  destruct data as [|r0 data]; [intros _ a []|].
  unfold write_libfm.
  destruct (mapM (extract_row "termnum" n) (r0 :: data)) as [ls|] eqn:E;
    [|discriminate].
  intros _. exact (mapM_ok_all _ _ _ E).
Qed.

Lemma write_libfm_raise (data : list Row) (n : Z) (e : string) :
  write_libfm data "termnum" n = Raise e -> e = "ValueError".
Proof.
  destruct data as [|r0 data]; [discriminate|].
  unfold write_libfm.
  destruct (mapM (extract_row "termnum" n) (r0 :: data)) as [ls|e'] eqn:E;
    [discriminate|].
  cbn [bind]. intro H. injection H as <-.
  exact (mapM_raise_uniform _ _ _ _ (extract_row_raise n) E).
Qed.

(** The two offsets that [run] computes. *)
Lemma run_offsets :
  train ++ test <> [] ->
  exists m M,
    py_max (map sid test ++ map sid train) = Ok m /\
    py_max (map cid (add_cid m test) ++ map cid (add_cid m train)) = Ok M /\
    (forall r, In r (train ++ test) -> sid r <= m /\ cid r + m <= M).
Proof.
  intro Hne.
  assert (Hmap : forall (f g : list Row -> list Z),
            (forall l, f l = [] -> l = []) -> (forall l, g l = [] -> l = []) ->
            f test ++ g train <> []).
  { intros f g Hf Hg E. apply app_eq_nil in E as [E1 E2].
    apply Hne. now rewrite (Hf _ E1), (Hg _ E2). }
  destruct (py_max_some (map sid test ++ map sid train)) as [m Hm].
  { apply (Hmap (map sid) (map sid)); intro l; apply map_eq_nil. }
  destruct (py_max_some (map cid (add_cid m test) ++ map cid (add_cid m train)))
    as [M HM].
  { apply (Hmap (fun l => map cid (add_cid m l)) (fun l => map cid (add_cid m l)));
      intros l E; apply map_eq_nil in E; now apply map_eq_nil in E. }
  exists m, M. split; [exact Hm|]. split; [exact HM|].
  intros r Hr. split.
  - apply (py_max_ub _ _ Hm). apply in_app_iff.
    apply in_app_iff in Hr as [Hr | Hr]; [right | left]; now apply in_map.
  - apply (py_max_ub _ _ HM). rewrite !add_cid_cid. apply in_app_iff.
    apply in_app_iff in Hr as [Hr | Hr]; [right | left];
      apply (in_map (fun r => cid r + m)); exact Hr.
Qed.

(** X17: an empty split makes [run] raise ValueError in every time
    mode (the maximum of no student id); a time parameter other than
    'bin' and 'cat' is treated as no time at all. *)
Theorem run_empty_and_unknown_time :
  (forall time, run time [] [] = Raise "ValueError") /\
  (forall time, time <> "bin" -> time <> "cat" ->
                run time train test = run "" train test).
Proof.
  split; [reflexivity|].
  intros time Hbin Hcat. unfold run.
  destruct (String.eqb_spec time "bin") as [E | _]; [contradiction|].
  destruct (String.eqb_spec time "cat") as [E | _]; [contradiction|].
  reflexivity.
Qed.


(** X19: in either time mode a record without term number makes [run]
    raise ValueError: the number cannot be formatted. *)
Theorem run_time_missing_term (r : Row)
    (Hin : In r (train ++ test)) (Hnan : termnum r = None) :
  run "cat" train test = Raise "ValueError" /\
  run "bin" train test = Raise "ValueError".
Proof.
  assert (Hne : train ++ test <> [])
    by (intro E; rewrite E in Hin; contradiction).
  destruct (run_offsets Hne) as [m [M [Hm [HM _]]]].
  assert (Hfail : forall n (f : Row -> Row) l1 l2,
            (forall x, termnum x = None -> termnum (f x) = None) ->
            In r (l1 ++ l2) ->
            (a <- write_libfm (map f l1) "termnum" n ;;
             b <- write_libfm (map f l2) "termnum" n ;;
             Ok (a, b)) = Raise "ValueError").
  { intros n f l1 l2 Hf Hr.
    destruct (write_libfm (map f l1) "termnum" n) as [a|e] eqn:E1;
      cbn [bind].
    - destruct (write_libfm (map f l2) "termnum" n) as [b|e] eqn:E2;
        cbn [bind].
      + exfalso.
        assert (exists y, extract_row "termnum" n (f r) = Ok y) as [y Hy].
        { apply in_app_iff in Hr as [Hr | Hr].
          - apply (write_libfm_ok_all _ _ _ E1). now apply in_map.
          - apply (write_libfm_ok_all _ _ _ E2). now apply in_map. }
        rewrite extract_row_missing in Hy by now apply Hf. discriminate.
      + f_equal. apply (write_libfm_raise _ _ _ E2).
    - f_equal. apply (write_libfm_raise _ _ _ E1). }
  unfold run. rewrite Hm. cbn [bind]. cbv zeta.
  change (String.eqb "cat" "bin") with false.
  change (String.eqb "cat" "cat") with true.
  change (String.eqb "bin" "bin") with true. cbv iota.
  rewrite HM. cbn [bind]. unfold add_termnum, add_cid.
  split.
  - apply Hfail; [intros x Hx; exact Hx | exact Hin].
  - rewrite !map_map. apply Hfail; [|exact Hin].
    intros x Hx. simpl. now rewrite Hx.
Qed.

End EncoderModes.

Section EncoderBinary.

Import UserCourseGradeLibFM.






Lemma run_time_missing_term_witness :
  In Examples.no_term
     (Examples.fm_train ++ [Examples.no_term]) /\
  termnum Examples.no_term = None /\
  run "cat" Examples.fm_train [Examples.no_term] =
    Raise "ValueError" /\
  run "bin" Examples.fm_train [Examples.no_term] =
    Raise "ValueError".
Proof.
  assert (In Examples.no_term
            (Examples.fm_train ++ [Examples.no_term])) as H1
    by (right; now left).
  split; [exact H1|]. split; [reflexivity|].
  exact (run_time_missing_term Examples.fm_train
           [Examples.no_term] Examples.no_term
           H1 eq_refl).
Defined.

End EncoderBinary.

(** ** The result aggregator: how many rows, and whose *)

Section AggregatorExtras.

Import Frame CompareMethods.

Lemma sorted_length (rows : list result_row) :
  List.length (sorted rows) = List.length rows.
Proof. apply Permutation_length, sort_perm. Qed.

Lemma tag_length (name : string) (rows : list (Z * Q * Q)) :
  List.length (tag name rows) = List.length rows.
Proof. apply length_map. Qed.

Lemma slice_to_In {B : Type} (n : Z) (l : list B) (x : B) :
  In x (slice_to n l) -> In x l.
Proof.
  assert (Hfirst : forall k, In x (firstn k l) -> In x l).
  { intros k H. rewrite <- (firstn_skipn k l). apply in_app_iff. now left. }
  unfold slice_to. destruct (n <? 0); apply Hfirst.
Qed.

Lemma concat_length_sum {B : Type} (ls : list (list B)) :
  List.length (List.concat ls) = list_sum (map (@List.length B) ls).
Proof.
  induction ls as [|l ls IH]; simpl; [reflexivity|].
  now rewrite length_app, IH.
Qed.

(** X21: for a count [topn] >= 0 the aggregator writes, for each
    method, the smaller of [topn] and the number of its rows: a method
    with fewer than [topn] rows contributes all of them. *)
Theorem run_row_count (topn : Z) (inputs : list (string * list (Z * Q * Q)))
    (HN : 0 <= topn) :
  List.length (run topn inputs) =
    list_sum (map (fun input =>
                     Nat.min (Z.to_nat topn) (List.length (snd input))) inputs) /\
  (forall input, (List.length (snd input) <= Z.to_nat topn)%nat ->
                 keep topn input = sorted (tag (fst input) (snd input))).
Proof.
  split.
  - unfold run. rewrite sorted_length, collect_app. simpl.
    rewrite concat_length_sum, map_map. f_equal. apply map_ext.
    intro input. unfold keep. rewrite slice_to_firstn by exact HN.
    now rewrite length_firstn, sorted_length, tag_length.
  - intros input Hlen. unfold keep. rewrite slice_to_firstn by exact HN.
    apply firstn_all2. now rewrite sorted_length, tag_length.
Qed.

Lemma run_row_count_witness :
  0 <= 7 /\
  List.length (run 7 [("SVD", Examples.ex_results); ("BPTF", [])]) =
    list_sum (map (fun input =>
                     Nat.min (Z.to_nat 7) (List.length (snd input)))
                [("SVD", Examples.ex_results); ("BPTF", [])]) /\
  (forall input, (List.length (snd input) <= Z.to_nat 7)%nat ->
                 keep 7 input = sorted (tag (fst input) (snd input))).
Proof.
  split; [lia|].
  apply (run_row_count 7 [("SVD", Examples.ex_results); ("BPTF", [])]). lia.
Defined.

(** X22: whatever [topn] is, every row the aggregator writes is a row
    of one of its inputs, tagged with that input's method name. *)
Theorem run_rows_from_inputs (topn : Z)
    (inputs : list (string * list (Z * Q * Q))) (row : result_row) :
  In row (run topn inputs) ->
  exists input,
    In input inputs /\ method row = fst input /\
    In (dim row, train_error row, test_error row) (snd input).
Proof.
  unfold run, sorted. rewrite sort_In, collect_app. simpl.
  intro H. apply in_concat in H as [l [Hl Hrow]].
  apply in_map_iff in Hl as [input [<- Hin]].
  exists input. split; [exact Hin|].
  unfold keep in Hrow. apply slice_to_In in Hrow.
  unfold sorted in Hrow. rewrite sort_In in Hrow.
  unfold tag in Hrow. apply in_map_iff in Hrow as [[[d tr] te] [<- Hr]].
  simpl. now split.
Qed.

Lemma run_rows_from_inputs_witness :
  In (mkResult "SVD" 5 (1 # 10) (2 # 10)) (run 3 [("SVD", Examples.ex_results)]) /\
  exists input,
    In input [("SVD", Examples.ex_results)] /\
    method (mkResult "SVD" 5 (1 # 10) (2 # 10)) = fst input /\
    In (dim (mkResult "SVD" 5 (1 # 10) (2 # 10)),
        train_error (mkResult "SVD" 5 (1 # 10) (2 # 10)),
        test_error (mkResult "SVD" 5 (1 # 10) (2 # 10))) (snd input).
Proof.
  assert (In (mkResult "SVD" 5 (1 # 10) (2 # 10))
             (run 3 [("SVD", Examples.ex_results)])) as H by now left.
  split; [exact H|].
  exact (run_rows_from_inputs 3 [("SVD", Examples.ex_results)] _ H).
Defined.

End AggregatorExtras.

(** ** File names from class names *)

Section FileNames.

Import BasicLuigiTask Naming.

Lemma string_app_empty_r (s : string) : (s ++ "")%string = s.
Proof. induction s as [|a s IH]; simpl; [reflexivity | now rewrite IH]. Qed.

Lemma lower_app (s1 s2 : string) :
  lower (s1 ++ s2) = (lower s1 ++ lower s2)%string.
Proof. induction s1 as [|a s1 IH]; simpl; [reflexivity | now rewrite IH]. Qed.

Lemma join_last_app (sep : string) (l : list string) (x y : string) :
  join sep (l ++ [(x ++ y)%string]) = (join sep (l ++ [x]) ++ y)%string.
Proof.
  induction l as [|p l IH]; [reflexivity|].
  destruct l as [|q l].
  - simpl. now rewrite !string_app_assoc.
  - change (join sep ((p :: q :: l) ++ [(x ++ y)%string]))
      with (p ++ sep ++ join sep ((q :: l) ++ [(x ++ y)%string]))%string.
    change (join sep ((p :: q :: l) ++ [x]))
      with (p ++ sep ++ join sep ((q :: l) ++ [x]))%string.
    now rewrite IH, !string_app_assoc.
Qed.

Lemma join_snoc (sep : string) (l : list string) (x : string) :
  l <> [] -> join sep (l ++ [x]) = (join sep l ++ sep ++ x)%string.
Proof.
  induction l as [|p l IH]; [congruence|]. intros _.
  destruct l as [|q l]; [reflexivity|].
  change (join sep ((p :: q :: l) ++ [x]))
    with (p ++ sep ++ join sep ((q :: l) ++ [x]))%string.
  change (join sep (p :: q :: l)) with (p ++ sep ++ join sep (q :: l))%string.
  rewrite IH by discriminate. now rewrite !string_app_assoc.
Qed.

Lemma read_words_join (rest : string) (words : list string) (chars : string) :
  join "-" (map lower (read_words words chars rest)) =
  (join "-" (map lower (words ++ [chars])) ++ hyphenate rest)%string.
Proof.
  revert words chars. induction rest as [|c rest IH]; intros words chars.
  - simpl. now rewrite string_app_empty_r.
  - cbn [read_words hyphenate]. destruct (isupper c) eqn:E.
    + rewrite IH, map_app. cbn [map lower].
      rewrite join_snoc by (rewrite map_app; now destruct (map lower words)).
      rewrite !string_app_assoc. reflexivity.
    + rewrite IH, !map_app. cbn [map]. rewrite lower_app. cbn [lower].
      rewrite join_last_app, string_app_assoc. reflexivity.
Qed.

(** X23: [fname_from_cname] turns a class name into lower case with a
    hyphen before every capital letter after the first character; the
    empty name raises IndexError. *)
Theorem fname_from_cname_hyphenates :
  fname_from_cname "" = Raise "IndexError" /\
  (forall c rest,
     fname_from_cname (String c rest) =
     Ok (String (lower_char c) (hyphenate rest))) /\
  fname_from_cname "PreprocessedCourseData" = Ok "preprocessed-course-data".
Proof.
  split; [reflexivity|]. split; [|reflexivity].
  intros c rest. unfold fname_from_cname. now rewrite read_words_join.
Qed.

End FileNames.

(** ** Identifier maps *)

Section IdMapFacts.

Import IdMap.

Context {K : Type} (eqb : K -> K -> bool).
Hypothesis eqb_spec : forall a b, eqb a b = true <-> a = b.

Lemma existsb_eqb_In (k : K) (l : list K) :
  existsb (eqb k) l = true <-> In k l.
Proof.
  rewrite existsb_exists. split.
  - intros [x [Hx E]]. apply eqb_spec in E. now subst.
  - intro H. exists k. split; [exact H | now apply eqb_spec].
Qed.

Lemma eqb_neq (a b : K) : a <> b -> eqb a b = false.
Proof.
  intro H. destruct (eqb a b) eqn:E; [|reflexivity].
  apply eqb_spec in E. contradiction.
Qed.

Lemma first_seen_In (seen l : list K) (k : K) :
  In k (first_seen eqb seen l) -> In k l /\ ~ In k seen.
Proof.
  revert seen. induction l as [|x l IH]; simpl; intros seen H; [contradiction|].
  destruct (existsb (eqb x) seen) eqn:E.
  - destruct (IH seen H). tauto.
  - destruct H as [<- | H].
    + split; [now left|]. intro Hin. apply existsb_eqb_In in Hin. congruence.
    + destruct (IH (x :: seen) H) as [H1 H2]. split; [now right|].
      intro Hin. apply H2. now right.
Qed.

Lemma first_seen_NoDup (seen l : list K) : NoDup (first_seen eqb seen l).
Proof.
  revert seen. induction l as [|x l IH]; simpl; intro seen; [constructor|].
  destruct (existsb (eqb x) seen); [apply IH|].
  constructor; [|apply IH].
  intro H. apply first_seen_In in H as [_ H]. apply H. now left.
Qed.

Lemma first_seen_covers (seen l : list K) (k : K) :
  In k l -> In k seen \/ In k (first_seen eqb seen l).
Proof.
  revert seen. induction l as [|x l IH]; simpl; intros seen H; [contradiction|].
  destruct (existsb (eqb x) seen) eqn:E.
  - destruct H as [<- | H]; [left; now apply existsb_eqb_In | now apply IH].
  - destruct H as [<- | H]; [right; now left|].
    destruct (IH (x :: seen) H) as [[<- | H'] | H']; simpl; tauto.
Qed.

Lemma index_of_cons_neq (k x : K) (l : list K) :
  x <> k -> index_of eqb k (x :: l) = S (index_of eqb k l).
Proof. intro H. simpl. now rewrite (eqb_neq _ _ H). Qed.

(** The distinct keys stand in the order of their first occurrence. *)
Lemma first_seen_order (seen l : list K) (i j : nat) (k1 k2 : K) :
  nth_error (first_seen eqb seen l) i = Some k1 ->
  nth_error (first_seen eqb seen l) j = Some k2 ->
  (i < j)%nat ->
  (index_of eqb k1 l < index_of eqb k2 l)%nat.
Proof.
  revert seen i j. induction l as [|x l IH]; intros seen i j H1 H2 Hij.
  - destruct i; discriminate.
  - cbn [first_seen] in H1, H2.
    destruct (existsb (eqb x) seen) eqn:E.
    + apply existsb_eqb_In in E.
      assert (Hk : forall n k, nth_error (first_seen eqb seen l) n = Some k ->
                               x <> k).
      { intros n k Hn Hx. subst k. apply nth_error_In, first_seen_In in Hn.
        tauto. }
      rewrite !index_of_cons_neq by eauto.
      apply -> Nat.succ_lt_mono. now apply (IH seen i j).
    + assert (Hk : forall n k,
                nth_error (first_seen eqb (x :: seen) l) n = Some k -> x <> k).
      { intros n k Hn Hx. subst k. apply nth_error_In, first_seen_In in Hn.
        destruct Hn as [_ Hn]. apply Hn. now left. }
      destruct j as [|j]; [lia|]. cbn [nth_error] in H2.
      rewrite (index_of_cons_neq k2) by eauto.
      destruct i as [|i].
      * cbn [nth_error] in H1. injection H1 as <-. simpl.
        destruct (eqb_spec x x) as [_ Hr]. rewrite Hr by reflexivity. lia.
      * cbn [nth_error] in H1. rewrite (index_of_cons_neq k1) by eauto.
        apply -> Nat.succ_lt_mono. apply (IH (x :: seen) i j); [easy|easy|lia].
Qed.

Lemma combine_seq_fst (s : nat) (d : list K) :
  map fst (combine (seq s (List.length d)) d) = seq s (List.length d).
Proof.
  revert s. induction d as [|x d IH]; simpl; intro s; [reflexivity|].
  now rewrite IH.
Qed.

Lemma combine_seq_snd (s : nat) (d : list K) :
  map snd (combine (seq s (List.length d)) d) = d.
Proof.
  revert s. induction d as [|x d IH]; simpl; intro s; [reflexivity|].
  now rewrite IH.
Qed.

(** X24: an id map gives the distinct keys of the table the indices
    0, 1, ..., n-1: each key of the table is in the map exactly once,
    and the keys stand in the order of their first occurrence. *)
Theorem id_map_dense (keys : list K) :
  let m := id_map eqb keys in
  map fst m = seq 0 (List.length m) /\
  NoDup (map snd m) /\
  (forall k, In k keys <-> In k (map snd m)) /\
  (forall i j k1 k2,
     nth_error (map snd m) i = Some k1 ->
     nth_error (map snd m) j = Some k2 ->
     (i < j)%nat ->
     (index_of eqb k1 keys < index_of eqb k2 keys)%nat).
Proof.
  cbv zeta. unfold id_map. cbv zeta.
  rewrite combine_seq_snd, combine_seq_fst.
  rewrite length_combine, length_seq, Nat.min_id.
  split; [reflexivity|]. split; [apply first_seen_NoDup|]. split.
  - intro k. split.
    + intro H. destruct (first_seen_covers [] keys k H) as [[] | H']. exact H'.
    + intro H. now apply first_seen_In in H.
  - apply first_seen_order.
Qed.

End IdMapFacts.

Section MapIdsFacts.

Import IdMap.

Context {K : Type} (eqb : K -> K -> bool).
Hypothesis eqb_spec : forall a b, eqb a b = true <-> a = b.

Lemma filter_combine_absent (k : K) (s : nat) (d : list K) :
  ~ In k d ->
  filter (fun e => eqb (snd e) k) (combine (seq s (List.length d)) d) = [].
Proof.
  revert s. induction d as [|x d IH]; simpl; intros s H; [reflexivity|].
  rewrite (eqb_neq eqb eqb_spec x k) by tauto. apply IH. tauto.
Qed.

(** In a map with distinct keys a key matches one row, at the position
    of the key. *)
Lemma filter_combine_present (k : K) (s : nat) (d : list K) :
  NoDup d -> In k d ->
  filter (fun e => eqb (snd e) k) (combine (seq s (List.length d)) d) =
  [((s + index_of eqb k d)%nat, k)].
Proof.
  revert s. induction d as [|x d IH]; simpl; intros s Hnd Hin; [contradiction|].
  inversion Hnd as [|? ? Hx Hd]; subst.
  destruct (eqb x k) eqn:E.
  - apply eqb_spec in E. subst x.
    rewrite filter_combine_absent by exact Hx. now rewrite Nat.add_0_r.
  - destruct Hin as [-> | Hin].
    + destruct (eqb_spec k k) as [_ Hr]. rewrite Hr in E by reflexivity.
      discriminate.
    + rewrite (IH (S s) Hd Hin). now rewrite Nat.add_succ_r.
Qed.

Lemma index_of_nth (k : K) (d : list K) :
  In k d -> nth_error d (index_of eqb k d) = Some k.
Proof.
  induction d as [|x d IH]; simpl; intro H; [contradiction|].
  destruct (eqb x k) eqn:E.
  - apply eqb_spec in E. now subst.
  - destruct H as [-> | H]; [|now apply IH].
    destruct (eqb_spec k k) as [_ Hr]. rewrite Hr in E by reflexivity.
    discriminate.
Qed.

Lemma flat_map_single {A B : Type} (f : A -> list B) (g : A -> B) (l : list A) :
  (forall a, In a l -> f a = [g a]) -> flat_map f l = map g l.
Proof.
  induction l as [|a l IH]; simpl; intro H; [reflexivity|].
  rewrite (H a) by now left. simpl. f_equal. apply IH.
  intros b Hb. apply H. now right.
Qed.

(** X25: joining the courses with the id map built from the same
    courses keeps every row once, in order, and gives each row an id
    that is present: the index, in the map, of the row's key. *)
Theorem map_ids_total {R : Type} (key : R -> K) (courses : list R) :
  let distinct := first_seen eqb [] (map key courses) in
  map_ids eqb key courses =
    map (fun r => (r, Some (index_of eqb (key r) distinct))) courses /\
  (forall r, In r courses ->
     nth_error distinct (index_of eqb (key r) distinct) = Some (key r)).
Proof.
  cbv zeta.
  assert (Hin : forall r, In r courses ->
                  In (key r) (first_seen eqb [] (map key courses))).
  { intros r Hr.
    destruct (first_seen_covers eqb eqb_spec [] (map key courses) (key r))
      as [[] | H]; [now apply in_map | exact H]. }
  split.
  - unfold map_ids, merge_left, id_map. cbv zeta.
    apply flat_map_single. intros r Hr.
    rewrite filter_combine_present;
      [reflexivity | apply (first_seen_NoDup eqb eqb_spec) | now apply Hin].
  - intros r Hr. apply index_of_nth. now apply Hin.
Qed.

End MapIdsFacts.

Section IdMapWitnesses.

Import IdMap.

Lemma id_map_dense_witness :
  (forall a b, Z.eqb a b = true <-> a = b) /\
  id_map Z.eqb Examples.ex_keys = [(0%nat, 30); (1%nat, 10); (2%nat, 20)] /\
  let m := id_map Z.eqb Examples.ex_keys in
  map fst m = seq 0 (List.length m) /\
  NoDup (map snd m) /\
  (forall k, In k Examples.ex_keys <-> In k (map snd m)) /\
  (forall i j k1 k2,
     nth_error (map snd m) i = Some k1 ->
     nth_error (map snd m) j = Some k2 ->
     (i < j)%nat ->
     (index_of Z.eqb k1 Examples.ex_keys <
      index_of Z.eqb k2 Examples.ex_keys)%nat).
Proof.
  split; [exact Z.eqb_eq|]. split; [reflexivity|].
  exact (id_map_dense Z.eqb Z.eqb_eq Examples.ex_keys).
Defined.

Lemma map_ids_total_witness :
  (forall a b, Z.eqb a b = true <-> a = b) /\
  map_ids Z.eqb sid Examples.ex_test =
    map (fun r => (r, Some (index_of Z.eqb (sid r) [2; 1; 3])))
      Examples.ex_test /\
  (forall r, In r Examples.ex_test ->
     nth_error (first_seen Z.eqb [] (map sid Examples.ex_test))
       (index_of Z.eqb (sid r) (first_seen Z.eqb [] (map sid Examples.ex_test))) =
     Some (sid r)).
Proof.
  split; [exact Z.eqb_eq|].
  exact (map_ids_total Z.eqb Z.eqb_eq sid Examples.ex_test).
Defined.

End IdMapWitnesses.

(** ** Output paths and the method name read back from them *)

Section PathFacts.

Import TrainTestFilter Naming Paths.

Lemma contains_join (c : ascii) (sep : string) (l : list string) :
  contains c sep = false ->
  Forall (fun p => contains c p = false) l ->
  contains c (join sep l) = false.
Proof.
  intros Hsep Hl. induction Hl as [|p l Hp Hl IH]; [reflexivity|].
  destruct l as [|q l]; [exact Hp|].
  change (join sep (p :: q :: l)) with (p ++ sep ++ join sep (q :: l))%string.
  now rewrite !contains_app, Hp, Hsep, IH.
Qed.

Lemma split_pieces_clean (c d : ascii) (s : string) :
  contains c s = false ->
  Forall (fun p => contains c p = false) (split d s).
Proof.
  induction s as [|a s IH]; simpl; intro H.
  - now repeat constructor.
  - apply orb_false_iff in H as [Ha Hs]. specialize (IH Hs).
    destruct (Ascii.eqb a d).
    + now constructor.
    + destruct (split d s) as [|p ps].
      { constructor; [|constructor]. simpl. now rewrite Ha. }
      inversion IH as [|? ? Hp Hps]; subst.
      constructor; [|exact Hps]. simpl. now rewrite Ha, Hp.
Qed.

Lemma __str___clean (c : ascii) (f : t) :
  digit c = None -> c <> "-"%char -> c <> "_"%char -> c <> "T"%char ->
  contains c (__str__ f) = false.
Proof.
  intros Hd Hm Hu HT. unfold __str__.
  rewrite !contains_app, !fmt_int_no_char by assumption.
  cbn [contains].
  destruct (Ascii.eqb_spec "_" c) as [E | _]; [congruence|].
  destruct (Ascii.eqb_spec "T" c) as [E | _]; [congruence|].
  reflexivity.
Qed.

(** A template part without per cent sign is copied. *)
Lemma percent_app (pre t arg : string) (used : bool) :
  contains "%" pre = false ->
  percent (pre ++ t) arg used =
  (r <- percent t arg used ;; Ok (pre ++ r)%string).
Proof.
  induction pre as [|a pre IH]; intro H.
  - simpl. now destruct (percent t arg used).
  - cbn [contains] in H. apply orb_false_iff in H as [Ha Hpre].
    cbn [append percent]. rewrite Ha, (IH Hpre).
    now destruct (percent t arg used).
Qed.

Lemma nonempty_app_r (s1 s2 : string) :
  nonempty s2 = true -> nonempty (s1 ++ s2) = true.
Proof. destruct s1; [trivial | reflexivity]. Qed.

Lemma nonempty_join2 (sep p q : string) (l : list string) :
  nonempty sep = true -> nonempty (join sep (p :: q :: l)) = true.
Proof.
  intro H.
  change (join sep (p :: q :: l)) with (p ++ sep ++ join sep (q :: l))%string.
  apply nonempty_app_r. now destruct sep.
Qed.

End PathFacts.

Section MethodNames.

Import TrainTestFilter Naming Paths.

Lemma param_suffix_clean (c : ascii) (filters : list t) :
  c = "%"%char \/ c = "/"%char ->
  contains c (join "-" (map __str__ filters)) = false.
Proof.
  intro Hc. apply contains_join; [destruct Hc; subst; reflexivity|].
  apply Forall_forall. intros p Hp. apply in_map_iff in Hp as [f [<- _]].
  apply __str___clean; destruct Hc; subst; (reflexivity || discriminate).
Qed.

Lemma count_part_clean (c : ascii) (tag : string) (n : Z) :
  c = "%"%char \/ c = "/"%char ->
  contains c tag = false ->
  contains c (tag ++ fmt_int n) = false.
Proof.
  intros Hc Htag. rewrite contains_app, Htag.
  apply fmt_int_no_char; destruct Hc; subst; (reflexivity || discriminate).
Qed.

(** The template of a task with prefix 'ucg', base 'outcomes' and a
    non-empty suffix. *)
Lemma output_base_fname_shape (ext suffix : string) (filters : list t)
    (dn : bool) (bs bc : nat) :
  nonempty suffix = true ->
  exists J,
    (forall c, c = "%"%char \/ c = "/"%char ->
               contains c suffix = false -> contains c J = false) /\
    output_base_fname "outcomes" ext "ucg" suffix filters dn bs bc =
    ("outcomes/ucg-" ++ J ++ ".%s." ++ ext)%string.
Proof.
  intro Hs. unfold output_base_fname. cbv zeta.
  rewrite Hs. change (nonempty "ucg") with true. cbv iota.
  assert (Hps := fun c => param_suffix_clean c filters).
  assert (Hscs := fun c H => count_part_clean c "scs" (Z.of_nat bs) H).
  assert (Hccs := fun c H => count_part_clean c "ccs" (Z.of_nat bc) H).
  set (ps := join "-" (map __str__ filters)) in *.
  set (scs := ("scs" ++ fmt_int (Z.of_nat bs))%string) in *.
  set (ccs := ("ccs" ++ fmt_int (Z.of_nat bc))%string) in *.
  destruct (nonempty ps), (negb dn), (bs =? 0)%nat, (bc =? 0)%nat; cbn [app];
    match goal with
    | |- exists J, _ /\
           (path_join _ (join _ ("ucg" :: ?l)) ++ _)%string = _ =>
        exists (join "-" l)
    end;
    (split; [|reflexivity]);
    intros c Hc Hsuf;
    (apply contains_join; [destruct Hc; subst; reflexivity|]);
    repeat (apply Forall_cons;
            [first [ exact Hsuf | exact (Hps c Hc)
                   | apply Hscs; [exact Hc | destruct Hc; subst; reflexivity]
                   | apply Hccs; [exact Hc | destruct Hc; subst; reflexivity]
                   | destruct Hc; subst; reflexivity ]|]);
    apply Forall_nil.
Qed.

End MethodNames.

Section MethodNameClaims.

Import TrainTestFilter Naming Paths.

(** X26: the method name that the aggregator reads back from the
    output path of a solver task is the file prefix 'ucg', whatever the
    task class (SVD, BiasedSVD, TimeSVD, ...) and its parameters: the
    class name stands after the last dot of the file name, not before
    the first hyphen. *)
Theorem method_name_is_prefix (cname : string) (filters : list t)
    (dn : bool) (bs bc : nat) (time : string) (iterations : Z)
    (std_text : string) (use_bias : bool)
    (Htime : contains "%" time = false /\ contains "/" time = false)
    (Hstd : contains "%" std_text = false /\ contains "/" std_text = false)
    (Hcname : contains "/" cname = false) :
  exists J,
    runlibfm_output cname filters dn bs bc time iterations std_text use_bias =
      Ok ("outcomes/ucg-" ++ J ++ "." ++ cname ++ ".tsv")%string /\
    extract_method_name
      ("outcomes/ucg-" ++ J ++ "." ++ cname ++ ".tsv")%string = "ucg".
Proof.
  unfold runlibfm_output. cbv zeta.
  set (suffix := join "-" _).
  assert (Hne : nonempty suffix = true).
  { unfold suffix. destruct (nonempty time), use_bias; cbn [app];
      apply nonempty_join2; reflexivity. }
  assert (Hclean : forall c, c = "%"%char \/ c = "/"%char ->
                             contains c suffix = false).
  { intros c Hc.
    assert (Ht : contains c ("time-" ++ time)%string = false).
    { rewrite contains_app. destruct Hc; subst; cbn; tauto. }
    assert (Hi : contains c ("i" ++ fmt_int iterations)%string = false)
      by (apply count_part_clean; [exact Hc | destruct Hc; subst; reflexivity]).
    assert (Hsd : contains c
                    ("s" ++ join "" (split "." std_text))%string = false).
    { rewrite contains_app.
      replace (contains c "s") with false by (destruct Hc; subst; reflexivity).
      apply contains_join; [reflexivity|]. apply split_pieces_clean.
      destruct Hc; subst; tauto. }
    assert (Hb : contains c "b" = false) by (destruct Hc; subst; reflexivity).
    unfold suffix. apply contains_join; [destruct Hc; subst; reflexivity|].
    destruct (nonempty time), use_bias; cbn [app];
      repeat (apply Forall_cons; [assumption|]); apply Forall_nil. }
  destruct (output_base_fname_shape "tsv" suffix filters dn bs bc Hne)
    as [J [HJ ->]].
  exists J. split.
  - rewrite <- (string_app_assoc "outcomes/ucg-" J).
    rewrite percent_app.
    + cbn [percent bind Ascii.eqb Bool.eqb append]. reflexivity.
    + rewrite contains_app. rewrite (HJ "%"%char) by auto. reflexivity.
  - unfold extract_method_name, basename.
    set (R := ("ucg" ++ String "-" (J ++ "." ++ cname ++ ".tsv"))%string).
    change ("outcomes/ucg-" ++ J ++ "." ++ cname ++ ".tsv")%string
      with ("outcomes" ++ String "/" R)%string.
    rewrite (split_first "/" "outcomes" R eq_refl).
    rewrite (split_absent "/" R).
    + cbn [last]. unfold R.
      now rewrite (split_first "-" "ucg" (J ++ "." ++ cname ++ ".tsv") eq_refl).
    + unfold R. rewrite !contains_app. cbn [contains].
      rewrite !contains_app, (HJ "/"%char), Hcname by auto. reflexivity.
Qed.

Lemma method_name_is_prefix_witness :
  (contains "%" "cat" = false /\ contains "/" "cat" = false) /\
  (contains "%" "0.3" = false /\ contains "/" "0.3" = false) /\
  contains "/" "BiasedTimeSVD" = false /\
  runlibfm_output "BiasedTimeSVD" [mk 0 4 0 14] false 3 0 "cat" 100 "0.3" true =
    Ok "outcomes/ucg-0_4T0_14-ng-scs3-time-cat-i100-s03-b.BiasedTimeSVD.tsv" /\
  exists J,
    runlibfm_output "BiasedTimeSVD" [mk 0 4 0 14] false 3 0 "cat" 100 "0.3" true =
      Ok ("outcomes/ucg-" ++ J ++ "." ++ "BiasedTimeSVD" ++ ".tsv")%string /\
    extract_method_name
      ("outcomes/ucg-" ++ J ++ "." ++ "BiasedTimeSVD" ++ ".tsv")%string = "ucg".
Proof.
  assert (contains "%" "cat" = false /\ contains "/" "cat" = false) as H1
    by (split; reflexivity).
  assert (contains "%" "0.3" = false /\ contains "/" "0.3" = false) as H2
    by (split; reflexivity).
  split; [exact H1|]. split; [exact H2|]. split; [reflexivity|].
  split; [reflexivity|].
  exact (method_name_is_prefix "BiasedTimeSVD" [mk 0 4 0 14] false 3 0
           "cat" 100 "0.3" true H1 H2 eq_refl).
Defined.

End MethodNameClaims.


(** ** The results table *)

Section TableFacts.

Import ResultsMarkdownTable.












Variable fmt_float : string -> result string.


End TableFacts.

Section TableWitness.

Import ResultsMarkdownTable.


End TableWitness.
